(** * Suitability analysis backend: a shallow embedding of
    [backend/suitability_analyzer.py] and the properties of its
    suitability engine, followed by the request handling of
    [backend/api_server.py] that drives it.

    Modelling conventions.
    - A raster cell is either the not-a-number marker [NaN] or a number
      [Val q].  Numbers are exact rationals ([Q]), compared with [==] as the
      source compares floats by value.  The rounding, overflow and
      underflow of the floats of the source are not part of this reading;
      the module [Float32] repeats the numeric steps of the engine in the
      number types of the source, for the statements that depend on them.
    - A numpy array is the row-major list of its cells ([grid]); its shape
      [(height, width)] is carried next to it where the source uses it.
    - Python dictionaries are association lists in insertion order.
    - [warp.reproject] belongs to rasterio/GDAL, not to this program: it is
      a parameter of the engine.
    - The data folder maps a file name to the raster stored under it; a
      file that exists is a readable single-band raster with at least one
      cell.
    - File system effects (rasters opened, directory created, raster
      written) are recorded in an event trace by a small
      writer-and-exception monad.  Text printed to the console is not
      modelled. *)

From Stdlib Require Import String List ZArith QArith Qround Lia Lqa Bool Arith.
From Stdlib Require Import Ascii Floats.
Import ListNotations.
Open Scope Q_scope.

(** ** Cells and arrays *)

Inductive cell : Type :=
| NaN
| Val (q : Q).

Definition grid := list cell.
Definition shape := (nat * nat)%type.

Definition size_of (s : shape) : nat := (fst s * snd s)%nat.

(** Equality of cells up to the value of the number. *)
Definition cell_eqv (a b : cell) : Prop :=
  match a, b with
  | NaN, NaN => True
  | Val x, Val y => x == y
  | _, _ => False
  end.

Definition cell_eqvb (a b : cell) : bool :=
  match a, b with
  | NaN, NaN => true
  | Val x, Val y => Qeq_bool x y
  | _, _ => false
  end.

Infix "=c=" := cell_eqv (at level 70, no associativity).

Definition grid_eqv (a b : grid) : Prop := Forall2 cell_eqv a b.

Definition is_val (c : cell) : Prop :=
  match c with NaN => False | Val _ => True end.

(** A cell that is missing or holds a score between 0 and 1. *)
Definition unit_cell (c : cell) : Prop :=
  c = NaN \/ exists x, c = Val x /\ 0 <= x <= 1.

Definition Qltb (a b : Q) : bool := negb (Qle_bool b a).

Definition isnan (c : cell) : bool :=
  match c with NaN => true | Val _ => false end.

(** Comparisons of a cell with a scalar: every comparison with NaN is
    false. *)
Definition cell_lt (q : Q) (c : cell) : bool :=
  match c with NaN => false | Val v => Qltb v q end.
Definition cell_le (q : Q) (c : cell) : bool :=
  match c with NaN => false | Val v => Qle_bool v q end.
Definition cell_eq (q : Q) (c : cell) : bool :=
  match c with NaN => false | Val v => Qeq_bool v q end.

(** [raster_data < q], [raster_data <= q], [raster_data == q],
    [np.isnan(raster_data)], [~mask], [a | b]. *)
Definition np_lt (g : grid) (q : Q) : list bool := map (cell_lt q) g.
Definition np_le (g : grid) (q : Q) : list bool := map (cell_le q) g.
Definition np_eq (g : grid) (q : Q) : list bool := map (cell_eq q) g.
Definition np_isnan (g : grid) : list bool := map isnan g.
Definition np_not (m : list bool) : list bool := map negb m.

Fixpoint map2 {A B C : Type} (f : A -> B -> C) (l : list A) (l' : list B)
  : list C :=
  match l, l' with
  | a :: t, b :: t' => f a b :: map2 f t t'
  | _, _ => []
  end.

Definition np_or (a b : list bool) : list bool := map2 orb a b.

(** [np.where(cond, x, y)] with both branches scalars, and with a scalar
    and an array. *)
Definition where_ss (cond : list bool) (x y : Q) : grid :=
  map (fun b : bool => if b then Val x else Val y) cond.
Definition where_sa (cond : list bool) (x : Q) (y : grid) : grid :=
  map2 (fun (b : bool) c => if b then Val x else c) cond y.

(** [np.full_like(a, q)] and [np.zeros(shape)], [np.full(shape, nan)]. *)
Definition full_like (a : grid) (q : Q) : grid := map (fun _ => Val q) a.
Definition np_zeros (s : shape) : grid := repeat (Val 0) (size_of s).

(** [a[mask] = nan]. *)
Definition set_nan_where (mask : list bool) (a : grid) : grid :=
  map2 (fun (b : bool) c => if b then NaN else c) mask a.

(** [np.clip(a, lo, hi)]: minimum(maximum(a, lo), hi), NaN stays NaN. *)
Definition clip_cell (lo hi : Q) (c : cell) : cell :=
  match c with
  | NaN => NaN
  | Val v =>
      let v1 := if Qltb v lo then lo else v in
      Val (if Qltb hi v1 then hi else v1)
  end.
Definition np_clip (a : grid) (lo hi : Q) : grid := map (clip_cell lo hi) a.

(** [np.select(condlist, choicelist, default)]: the first condition that
    holds picks the choice. *)
Fixpoint select_cell (cases : list ((cell -> bool) * Q)) (default : Q)
  (c : cell) : cell :=
  match cases with
  | [] => Val default
  | (p, v) :: rest => if p c then Val v else select_cell rest default c
  end.
Definition np_select (g : grid) (cases : list ((cell -> bool) * Q))
  (default : Q) : grid :=
  map (select_cell cases default) g.

(** ** Factor normalizer *)

Module Normalizer.

(** The body of [for val, norm_val in mapping.items():
      normalized = np.where(raster_data == val, norm_val, normalized)]. *)
Definition apply_mapping (raster_data : grid) (mapping : list (Q * Q))
  (normalized : grid) : grid :=
  fold_left
    (fun acc (kv : Q * Q) => where_sa (np_eq raster_data (fst kv)) (snd kv) acc)
    mapping normalized.

Definition phosphorus_mapping : list (Q * Q) :=
  [(2, 0.0); (3, 0.33); (4, 0.66); (5, 1.0)].
Definition texture_mapping : list (Q * Q) :=
  [(0, 0.0); (1, 0.2); (2, 0.33); (4, 0.66); (5, 1.0)].
Definition moisture_mapping : list (Q * Q) :=
  [(0, 0.0); (3, 0.5); (4, 0.7); (5, 1.0); (6, 0.7); (7, 0.5); (8, 0.3);
   (9, 0.1); (10, 0.0)].

Definition ndvi_cases : list ((cell -> bool) * Q) :=
  [(cell_eq 1, 10); (cell_eq 2, 40); (cell_eq 3, 100); (cell_eq 4, 80);
   (cell_eq 5, 20)].

Definition normalize_raster_values (raster_data : grid)
  (factor_name : string) : grid :=
  let valid_mask := np_not (np_isnan raster_data) in
  let normalized := full_like raster_data 0.0 in
  let finish (normalized : grid) : grid :=
    (* normalized[~valid_mask] = np.nan; return normalized *)
    set_nan_where (np_not valid_mask) normalized in
  if (factor_name =? "ph")%string then
    finish
      (where_sa (np_lt raster_data 4.5) 0.1
      (where_sa (np_lt raster_data 5.5) 0.3
      (where_sa (np_lt raster_data 6.0) 0.6
      (where_sa (np_le raster_data 7.5) 1.0
      (where_sa (np_le raster_data 8.5) 0.7
      (where_ss (np_le raster_data 9.0) 0.4 0.1))))))
  else if (factor_name =? "fertility")%string then
    finish
      (where_sa (np_eq raster_data 0) 1.0
      (where_sa (np_le raster_data 4) 0.8
      (where_sa (np_le raster_data 8) 0.6
      (where_sa (np_le raster_data 12) 0.4
      (where_ss (np_le raster_data 36) 0.2 0.0)))))
  else if (factor_name =? "ndvi")%string then
    (* returns at once: the statements after the chain are not reached *)
    np_select raster_data ndvi_cases 0
  else if (factor_name =? "nitrogen")%string then
    finish (where_ss (np_eq raster_data 5) 1.0 0.0)
  else if (factor_name =? "potassium")%string then
    finish (where_ss (np_eq raster_data 5) 1.0 0.0)
  else if (factor_name =? "phosphorus")%string then
    finish (apply_mapping raster_data phosphorus_mapping normalized)
  else if (factor_name =? "soc")%string then
    finish
      (where_sa (np_lt raster_data 1.0) 0.2
      (where_sa (np_lt raster_data 1.5) 0.4
      (where_sa (np_lt raster_data 2.0) 0.6
      (where_ss (np_lt raster_data 2.5) 0.8 1.0))))
  else if (factor_name =? "texture")%string then
    finish (apply_mapping raster_data texture_mapping normalized)
  else if (factor_name =? "moisture")%string then
    finish (apply_mapping raster_data moisture_mapping normalized)
  else if (factor_name =? "sulphur")%string then
    finish
      (where_sa (np_lt raster_data 2.5) 0.0
      (where_sa (np_lt raster_data 3.5) 0.33
      (where_ss (np_lt raster_data 4.5) 0.66 1.0)))
  else
    finish (np_clip raster_data 0 1).

(** The same rules read cell by cell.  A chain of nested [np.where] is a
    first-match selection; a mapping loop lets the later entries win. *)
Definition mapping_cases (mapping : list (Q * Q))
  : list ((cell -> bool) * Q) :=
  map (fun kv : Q * Q => (cell_eq (fst kv), snd kv)) (rev mapping).

Definition rule_cell (factor_name : string) : cell -> cell :=
  if (factor_name =? "ph")%string then
    select_cell [(cell_lt 4.5, 0.1); (cell_lt 5.5, 0.3); (cell_lt 6.0, 0.6);
                 (cell_le 7.5, 1.0); (cell_le 8.5, 0.7); (cell_le 9.0, 0.4)]
                0.1
  else if (factor_name =? "fertility")%string then
    select_cell [(cell_eq 0, 1.0); (cell_le 4, 0.8); (cell_le 8, 0.6);
                 (cell_le 12, 0.4); (cell_le 36, 0.2)] 0.0
  else if (factor_name =? "ndvi")%string then
    select_cell ndvi_cases 0
  else if (factor_name =? "nitrogen")%string then
    select_cell [(cell_eq 5, 1.0)] 0.0
  else if (factor_name =? "potassium")%string then
    select_cell [(cell_eq 5, 1.0)] 0.0
  else if (factor_name =? "phosphorus")%string then
    select_cell (mapping_cases phosphorus_mapping) 0.0
  else if (factor_name =? "soc")%string then
    select_cell [(cell_lt 1.0, 0.2); (cell_lt 1.5, 0.4); (cell_lt 2.0, 0.6);
                 (cell_lt 2.5, 0.8)] 1.0
  else if (factor_name =? "texture")%string then
    select_cell (mapping_cases texture_mapping) 0.0
  else if (factor_name =? "moisture")%string then
    select_cell (mapping_cases moisture_mapping) 0.0
  else if (factor_name =? "sulphur")%string then
    select_cell [(cell_lt 2.5, 0.0); (cell_lt 3.5, 0.33); (cell_lt 4.5, 0.66)]
                1.0
  else clip_cell 0 1.

Definition normalize_cell (factor_name : string) (c : cell) : cell :=
  if (factor_name =? "ndvi")%string then rule_cell factor_name c
  else if isnan c then NaN else rule_cell factor_name c.

End Normalizer.

(** ** Rasters, metadata and the data folder *)

(** The affine geotransform of a raster (six coefficients). *)
Record Affine : Type := mkAffine {
  af_a : Q; af_b : Q; af_c : Q; af_d : Q; af_e : Q; af_f : Q
}.

(** A coordinate reference system, by its EPSG code. *)
Definition CRS := nat.

(** A readable single-band raster file: what [rasterio.open] gives access
    to.  [pixel row col] is the value of band 1 as the program reads it,
    that is after the cast [astype(np.float32)]; a raster has at least one
    cell. *)
Record raster : Type := mkRaster {
  height : nat;
  width : nat;
  transform : Affine;
  crs : CRS;
  dtype : string;
  nodata : option cell;
  pixel : nat -> nat -> cell
}.

(** The dictionary [src.meta], with the keys the program touches. *)
Record meta : Type := mkMeta {
  m_dtype : string;
  m_nodata : option cell;
  m_width : nat;
  m_height : nat;
  m_count : nat;
  m_crs : CRS;
  m_transform : Affine;
  m_compress : option string
}.

Definition src_meta (src : raster) : meta :=
  {| m_dtype := dtype src; m_nodata := nodata src; m_width := width src;
     m_height := height src; m_count := 1%nat; m_crs := crs src;
     m_transform := transform src; m_compress := None |}.

Definition raster_shape (src : raster) : shape := (height src, width src).

(** [src.read(1).astype(np.float32)], row-major. *)
Definition read_band (src : raster) : grid :=
  flat_map (fun row => map (pixel src row) (seq 0 (width src)))
           (seq 0 (height src)).

(** [data[data == src.nodata] = np.nan] under [if src.nodata is not None]. *)
Definition cell_is (nd : cell) (c : cell) : bool :=
  match nd with NaN => false | Val q => cell_eq q c end.

Definition mask_nodata (nd : option cell) (data : grid) : grid :=
  match nd with
  | None => data
  | Some v => set_nan_where (map (cell_is v) data) data
  end.

(** The data folder: which file names exist, and the raster in each. *)
Definition folder := string -> option raster.

Definition factor_files : list (string * string) :=
  [("fertility", "Fertility.tif"); ("moisture", "SoilMoisture.tif");
   ("soc", "SOC.tif"); ("ndvi", "NDVI.tif"); ("nitrogen", "Nitrogen.tif");
   ("phosphorus", "Phosphorus.tif"); ("potassium", "Potassium.tif");
   ("ph", "PH.tif"); ("texture", "SoilTexture.tif");
   ("sulphur", "Sulphur.tif")]%string.

Definition weights := list (string * Q).

Definition default_weights : weights :=
  [("fertility", 30); ("moisture", 25); ("soc", 12); ("ndvi", 12);
   ("nitrogen", 8); ("phosphorus", 7); ("potassium", 6); ("ph", 6);
   ("texture", 3); ("sulphur", 1)]%string.

(** Dictionary access: [d[k]] / [d.get(k)] and [k in d]. *)
Fixpoint dict_get {A : Type} (d : list (string * A)) (k : string)
  : option A :=
  match d with
  | [] => None
  | (k', v) :: rest => if (k' =? k)%string then Some v else dict_get rest k
  end.

Definition dict_mem {A : Type} (d : list (string * A)) (k : string) : bool :=
  match dict_get d k with Some _ => true | None => false end.

(** [d[k] = v]: replaces the value of an existing key, appends a new one. *)
Fixpoint dict_set {A : Type} (d : list (string * A)) (k : string) (v : A)
  : list (string * A) :=
  match d with
  | [] => [(k, v)]
  | (k', v') :: rest =>
      if (k' =? k)%string then (k, v) :: rest else (k', v') :: dict_set rest k v
  end.

(** ** Effects: exceptions and the trace of file operations *)

Inductive exn : Type :=
| ZeroDivisionError
| FileNotFoundError
| KeyError.

Inductive outcome (A : Type) : Type :=
| Return (a : A)
| Raise (e : exn).
Arguments Return {A} a.
Arguments Raise {A} e.

Inductive event : Type :=
| EvOpen (filename : string)
| EvMakedirs (name : string)
| EvWrite (path : string) (m : meta) (data : grid).

Definition io (A : Type) : Type := (list event * outcome A)%type.

Definition ret {A : Type} (a : A) : io A := ([], Return a).
Definition raise {A : Type} (e : exn) : io A := ([], Raise e).
Definition emit (ev : event) : io unit := ([ev], Return tt).
Definition lift {A : Type} (o : outcome A) : io A := ([], o).

Definition bind {A B : Type} (m : io A) (f : A -> io B) : io B :=
  match m with
  | (t, Return a) => let (t', r) := f a in (t ++ t', r)
  | (t, Raise e) => (t, Raise e)
  end.

Notation "x <- m ;; k" := (bind m (fun x => k))
  (at level 61, m at next level, right associativity).
Notation "m ;;; k" := (bind m (fun _ => k))
  (at level 61, right associativity).

Definition trace {A : Type} (m : io A) : list event := fst m.
Definition result {A : Type} (m : io A) : outcome A := snd m.

(** ** Arithmetic on cells and arrays *)

Definition cell_add (a b : cell) : cell :=
  match a, b with Val x, Val y => Val (x + y) | _, _ => NaN end.
Definition cell_mul (a : cell) (k : Q) : cell :=
  match a with Val x => Val (x * k) | NaN => NaN end.
Definition cell_div (a : cell) (k : Q) : cell :=
  match a with Val x => Val (x / k) | NaN => NaN end.

Definition np_mul (a : grid) (k : Q) : grid := map (fun c => cell_mul c k) a.
Definition np_div (a : grid) (k : Q) : grid := map (fun c => cell_div c k) a.

(** [a[mask] += b[mask]]. *)
Definition masked_add (mask : list bool) (a b : grid) : grid :=
  map2 (fun (ma : bool * cell) y =>
          if fst ma then cell_add (snd ma) y else snd ma)
       (combine mask a) b.

(** Round to the nearest integer, ties to the even one ([np.rint]). *)
Definition rint (q : Q) : Z :=
  let n := Qfloor q in
  match Qcompare (q - inject_Z n) (1 # 2) with
  | Lt => n
  | Gt => (n + 1)%Z
  | Eq => if Z.even n then n else (n + 1)%Z
  end.

(** [np.round(x, 1)]: [rint(x * 10) / 10]. *)
Definition round1 (q : Q) : Q := inject_Z (rint (q * 10)) / 10.

Definition round1_cell (c : cell) : cell :=
  match c with NaN => NaN | Val q => Val (round1 q) end.
Definition np_round1 (a : grid) : grid := map round1_cell a.

(** ** Paths

    [os.path.dirname] on POSIX paths: the part of the path up to its last
    slash, without the trailing slashes unless it consists of slashes
    only. *)

Definition is_sep (c : ascii) : bool := (c =? "/")%char.

Fixpoint has_sep (p : string) : bool :=
  match p with
  | EmptyString => false
  | String c rest => is_sep c || has_sep rest
  end.

(** [p[:p.rfind('/') + 1]]. *)
Fixpoint path_head (p : string) : string :=
  match p with
  | EmptyString => EmptyString
  | String c rest =>
      if has_sep p then String c (path_head rest) else EmptyString
  end.

Fixpoint all_sep (p : string) : bool :=
  match p with
  | EmptyString => true
  | String c rest => is_sep c && all_sep rest
  end.

(** [head.rstrip('/')]. *)
Fixpoint rstrip_sep (p : string) : string :=
  match p with
  | EmptyString => EmptyString
  | String c rest =>
      match rstrip_sep rest with
      | EmptyString => if is_sep c then EmptyString else String c EmptyString
      | kept => String c kept
      end
  end.

Definition dirname (p : string) : string :=
  let head := path_head p in
  if negb (all_sep head) then rstrip_sep head else head.

(** [os.makedirs(name, exist_ok=True)]: the empty name is no directory and
    cannot be created; any other directory exists afterwards. *)
Definition makedirs (name : string) : io unit :=
  match name with
  | EmptyString => raise FileNotFoundError
  | _ => emit (EvMakedirs name)
  end.

(** ** Weight renormalization *)

(** [sum(weights.values())]. *)
Definition py_sum (l : list Q) : Q := fold_left Qplus l 0.

(** [x / y] on Python numbers. *)
Definition py_div (x y : Q) : outcome Q :=
  if Qeq_bool y 0 then Raise ZeroDivisionError else Return (x / y).

(** [{k: (v / total_weight) * 100 for k, v in weights.items()}]. *)
Fixpoint rescale_weights (total_weight : Q) (w : weights) : outcome weights :=
  match w with
  | [] => Return []
  | (k, v) :: rest =>
      match py_div v total_weight with
      | Raise e => Raise e
      | Return q =>
          match rescale_weights total_weight rest with
          | Raise e => Raise e
          | Return rest' => Return ((k, q * 100) :: rest')
          end
      end
  end.

Definition normalize_weights (w : weights) : outcome weights :=
  let total_weight := py_sum (map snd w) in
  if negb (Qeq_bool total_weight 100) then rescale_weights total_weight w
  else Return w.

(** ** The suitability engine *)

Inductive Resampling : Type :=
| bilinear
| nearest.

Definition shape_eqb (s t : shape) : bool :=
  (fst s =? fst t)%nat && (snd s =? snd t)%nat.

Record blend_state : Type := mkBlend {
  suitability : grid;
  normalized_factors : list (string * grid);
  total_weights_used : Q
}.

Section Engine.

(** [reproject m source src_shape src_transform src_crs dst_transform
    dst_shape i] is the value found in cell [i] of the destination array
    after the call of [warp.reproject]. *)
Variable reproject :
  Resampling -> grid -> shape -> Affine -> CRS -> Affine -> shape ->
  nat -> cell.

Definition resample (m : Resampling) (data : grid) (src : raster)
  (target_transform : Affine) (target_shape : shape) : grid :=
  map (reproject m data (raster_shape src) (transform src) (crs src)
         target_transform target_shape)
      (seq 0 (size_of target_shape)).

Definition load_and_normalize_factor (fld : folder) (factor_name : string)
  (target_transform : option Affine) (target_shape : option shape)
  : io (option (grid * meta)) :=
  match dict_get factor_files factor_name with
  | None => raise KeyError
  | Some filename =>
      match fld filename with
      | None => ret None
      | Some src =>
          emit (EvOpen filename) ;;;
          let data := read_band src in
          let data := mask_nodata (nodata src) data in
          let data :=
            match target_transform, target_shape with
            | Some t_transform, Some t_shape =>
                resample bilinear data src t_transform t_shape
            | _, _ => data
            end in
          let normalized :=
            Normalizer.normalize_raster_values data factor_name in
          ret (Some (normalized, src_meta src))
      end
  end.

(** The search for the reference raster: the first factor file that
    exists. *)
Fixpoint find_reference (fld : folder) (files : list (string * string))
  : io (option (meta * Affine * shape)) :=
  match files with
  | [] => ret None
  | (_, filename) :: rest =>
      match fld filename with
      | Some src =>
          emit (EvOpen filename) ;;;
          ret (Some (src_meta src, transform src, raster_shape src))
      | None => find_reference fld rest
      end
  end.

(** One turn of the loop over the factors. *)
Definition process_factor (fld : folder) (w : weights)
  (target_transform : Affine) (target_shape : shape)
  (factor_name : string) (st : blend_state) : io blend_state :=
  if dict_mem w factor_name then
    loaded <- load_and_normalize_factor fld factor_name
                (Some target_transform) (Some target_shape) ;;
    match loaded with
    | Some (normalized_data, _) =>
        match dict_get w factor_name with
        | None => raise KeyError
        | Some wv =>
            let weight := wv / 100 in
            let valid_mask := np_not (np_isnan normalized_data) in
            ret {| suitability :=
                     masked_add valid_mask (suitability st)
                       (np_mul normalized_data weight);
                   normalized_factors :=
                     dict_set (normalized_factors st) factor_name
                       normalized_data;
                   total_weights_used := total_weights_used st + weight |}
        end
    | None => ret st
    end
  else ret st.

Fixpoint process_factors (fld : folder) (w : weights)
  (target_transform : Affine) (target_shape : shape)
  (names : list string) (st : blend_state) : io blend_state :=
  match names with
  | [] => ret st
  | factor_name :: rest =>
      st' <- process_factor fld w target_transform target_shape
               factor_name st ;;
      process_factors fld w target_transform target_shape rest st'
  end.

(** The raw vegetation index on the target grid, as the penalty pass reads
    it. *)
Definition load_ndvi_original (src : raster) (target_transform : Affine)
  (target_shape : shape) : grid :=
  let ndvi_original := mask_nodata (nodata src) (read_band src) in
  if negb (shape_eqb (raster_shape src) target_shape) then
    resample nearest ndvi_original src target_transform target_shape
  else ndvi_original.

Definition apply_penalties (ndvi_original suitability : grid) : grid :=
  let ndvi_poor_mask :=
    np_or (np_eq ndvi_original 1) (np_eq ndvi_original 2) in
  let ndvi_forest_mask := np_eq ndvi_original 5 in
  let suitability := where_sa ndvi_poor_mask 0.1 suitability in
  where_sa ndvi_forest_mask 0.2 suitability.

Definition ndvi_penalties (fld : folder)
  (normalized_factors : list (string * grid))
  (target_transform : Affine) (target_shape : shape) (suitability : grid)
  : io grid :=
  if dict_mem normalized_factors "ndvi" then
    match dict_get factor_files "ndvi" with
    | None => raise KeyError
    | Some ndvi_file =>
        match fld ndvi_file with
        | Some src =>
            emit (EvOpen ndvi_file) ;;;
            ret (apply_penalties
                   (load_ndvi_original src target_transform target_shape)
                   suitability)
        | None => ret suitability
        end
    end
  else ret suitability.

(** Rounding to one decimal, the 0-100 scale and the final clip. *)
Definition discretize (suitability : grid) : grid := np_round1 suitability.
Definition rescale (suitability : grid) : grid :=
  np_clip (np_mul suitability 100) 0 100.

(** The loop without its trace: what one turn does to the state when the
    factor has a weight and its file exists, and the fold over the names. *)
Definition raw_on_grid (src : raster) (target_transform : Affine)
  (target_shape : shape) : grid :=
  resample bilinear (mask_nodata (nodata src) (read_band src)) src
    target_transform target_shape.

Definition acc_cell (weight : Q) (s n : cell) : cell :=
  if isnan n then s else cell_add s (cell_mul n weight).

Definition blend_step (st : blend_state) (factor_name : string)
  (normalized_data : grid) (weight : Q) : blend_state :=
  {| suitability := map2 (acc_cell weight) (suitability st) normalized_data;
     normalized_factors :=
       dict_set (normalized_factors st) factor_name normalized_data;
     total_weights_used := total_weights_used st + weight |}.

Definition factor_step (fld : folder) (w : weights)
  (target_transform : Affine) (target_shape : shape)
  (st : blend_state) (factor_name : string) : blend_state :=
  match dict_get factor_files factor_name with
  | None => st
  | Some filename =>
      match dict_get w factor_name, fld filename with
      | Some wv, Some src =>
          blend_step st factor_name
            (Normalizer.normalize_raster_values
               (raw_on_grid src target_transform target_shape) factor_name)
            (wv / 100)
      | _, _ => st
      end
  end.

(** Whether a turn of the loop blends the factor in: it has a weight and
    its file exists. *)
Definition contributes (fld : folder) (w : weights) (factor_name : string)
  : bool :=
  match dict_get factor_files factor_name with
  | None => false
  | Some filename =>
      match dict_get w factor_name, fld filename with
      | Some _, Some _ => true
      | _, _ => false
      end
  end.

Definition run_factors (fld : folder) (w : weights)
  (target_transform : Affine) (target_shape : shape)
  (names : list string) (st : blend_state) : blend_state :=
  fold_left (factor_step fld w target_transform target_shape) names st.

Definition initial_state (target_shape : shape) : blend_state :=
  {| suitability := np_zeros target_shape;
     normalized_factors := [];
     total_weights_used := 0 |}.

(** The accumulator has the target shape and holds numbers only. *)
Definition well_shaped (target_shape : shape) (st : blend_state) : Prop :=
  length (suitability st) = size_of target_shape /\
  Forall is_val (suitability st).

(** The eleven values a composite in [0, 1] can take once rounded. *)
Definition bands : list Q :=
  [0.0; 0.1; 0.2; 0.3; 0.4; 0.5; 0.6; 0.7; 0.8; 0.9; 1.0].

(** The values the engine computes, without the trace: the reference
    raster, the blend and the composite after the penalty pass. *)
Fixpoint reference_of (fld : folder) (files : list (string * string))
  : option raster :=
  match files with
  | [] => None
  | (_, filename) :: rest =>
      match fld filename with
      | Some src => Some src
      | None => reference_of fld rest
      end
  end.

Definition blended (fld : folder) (w : weights)
  (target_transform : Affine) (target_shape : shape)
  : grid * list (string * grid) :=
  let st := run_factors fld w target_transform target_shape
              (map fst factor_files) (initial_state target_shape) in
  (if Qltb 0 (total_weights_used st)
   then np_div (suitability st) (total_weights_used st)
   else suitability st,
   normalized_factors st).

Definition penalized (fld : folder) (w : weights)
  (target_transform : Affine) (target_shape : shape) : grid :=
  let b := blended fld w target_transform target_shape in
  if dict_mem (snd b) "ndvi" then
    match fld "NDVI.tif"%string with
    | Some src =>
        apply_penalties
          (load_ndvi_original src target_transform target_shape) (fst b)
    | None => fst b
    end
  else fst b.

(** The weighted blend: the loop over the factors, then the division by the
    weight applied. *)
Definition aggregate (fld : folder) (w : weights)
  (target_transform : Affine) (target_shape : shape)
  : io (grid * list (string * grid)) :=
  st <- process_factors fld w target_transform target_shape
          (map fst factor_files)
          {| suitability := np_zeros target_shape;
             normalized_factors := [];
             total_weights_used := 0 |} ;;
  let suitability :=
    if Qltb 0 (total_weights_used st)
    then np_div (suitability st) (total_weights_used st)
    else suitability st in
  ret (suitability, normalized_factors st).

(** The composite grid before the rounding step. *)
Definition composite (fld : folder) (w : weights)
  (target_transform : Affine) (target_shape : shape) : io grid :=
  blended <- aggregate fld w target_transform target_shape ;;
  ndvi_penalties fld (snd blended) target_transform target_shape
    (fst blended).

(** [weights] when the caller gives one, [self.default_weights.copy()]
    otherwise. *)
Definition supplied (w : option weights) : weights :=
  match w with None => default_weights | Some w => w end.

(** [calculate_suitability] up to and including the rounding step. *)
Definition discretized_suitability (fld : folder) (w : option weights)
  : io (grid * meta) :=
  let w := supplied w in
  w <- lift (normalize_weights w) ;;
  reference <- find_reference fld factor_files ;;
  match reference with
  | None => raise FileNotFoundError
  | Some (reference_meta, target_transform, target_shape) =>
      suitability <- composite fld w target_transform target_shape ;;
      ret (discretize suitability, reference_meta)
  end.

(** The scaling to 0-100 and the clip.  The range printed before the
    return ([np.nanmin], [np.nanmax]) only reads the grid; it needs a grid
    with a cell, which the grid of a raster is. *)
Definition calculate_suitability (fld : folder) (w : option weights)
  : io (grid * meta) :=
  rounded <- discretized_suitability fld w ;;
  ret (rescale (fst rounded), snd rounded).

(** [meta.update({...})], the replacement of NaN by the no-data value, the
    creation of the output directory and the writing of the raster. *)
Definition output_meta (m : meta) : meta :=
  {| m_dtype := "float32"; m_nodata := Some (Val (-9999));
     m_width := m_width m; m_height := m_height m; m_count := 1%nat;
     m_crs := m_crs m; m_transform := m_transform m;
     m_compress := Some "lzw"%string |}.

Definition fill_nodata (m : meta) (data : grid) : grid :=
  match m_nodata m with
  | Some v => map (fun c => if isnan c then v else c) data
  | None => data
  end.

Definition save_suitability_raster (suitability_data : grid) (m : meta)
  (output_path : string) : io string :=
  let m := output_meta m in
  let output_data := fill_nodata m suitability_data in
  makedirs (dirname output_path) ;;;
  emit (EvWrite output_path m output_data) ;;;
  ret output_path.

(** [try: ... except Exception: ...]. *)
Definition try_except {A : Type} (body : io A) (handler : exn -> io A)
  : io A :=
  match body with
  | (t, Raise e) => let (t', r) := handler e in (t ++ t', r)
  | (t, Return a) => (t, Return a)
  end.

(** [main], from the point where the weights have been parsed. *)
Definition main (fld : folder) (w : option weights) (output : string)
  : io Z :=
  try_except
    (sm <- calculate_suitability fld w ;;
     save_suitability_raster (fst sm) (snd sm) output ;;;
     ret 0%Z)
    (fun _ => ret 1%Z).

End Engine.

(** ** Concrete data folders *)

Definition affine_eqb (s t : Affine) : bool :=
  Qeq_bool (af_a s) (af_a t) && Qeq_bool (af_b s) (af_b t) &&
  Qeq_bool (af_c s) (af_c t) && Qeq_bool (af_d s) (af_d t) &&
  Qeq_bool (af_e s) (af_e t) && Qeq_bool (af_f s) (af_f t).

(** A resampler for folders whose rasters all lie on one grid.  For a
    source on the target grid, nearest-neighbour resampling copies each
    cell.  Bilinear resampling interpolates between a cell and its right,
    lower and lower-right neighbours: at the centre of a cell the cell
    itself weighs 1 and the neighbours weigh 0, so the value of a cell is
    kept when its neighbours are valid, and a missing neighbour makes the
    cell missing (a product with NaN is NaN).  Any other source is taken not
    to cover the target, where the resampler leaves 0. *)
Definition kernel_tap (source : grid) (s : shape) (row col : nat) (k : Q)
  : cell :=
  if ((row <? fst s) && (col <? snd s))%nat
  then cell_mul (nth (row * snd s + col) source NaN) k
  else Val 0.

Definition bilinear_at (source : grid) (s : shape) (i : nat) : cell :=
  let row := (i / snd s)%nat in
  let col := (i mod snd s)%nat in
  cell_add
    (cell_add (kernel_tap source s row col 1)
              (kernel_tap source s row (col + 1) 0))
    (cell_add (kernel_tap source s (row + 1) col 0)
              (kernel_tap source s (row + 1) (col + 1) 0)).

Definition coregistered_reproject (m : Resampling) (source : grid)
  (src_shape : shape) (src_transform : Affine) (c : CRS)
  (dst_transform : Affine) (dst_shape : shape) (i : nat) : cell :=
  if shape_eqb src_shape dst_shape && affine_eqb src_transform dst_transform
  then match m with
       | nearest => nth i source NaN
       | bilinear => bilinear_at source src_shape i
       end
  else Val 0.

Module Scenario.

Definition north_up : Affine := mkAffine 1 0 0 0 (-1) 0.

(** A raster of the given shape holding one value everywhere. *)
Definition constant_raster (h w : nat) (nd : option cell) (v : cell)
  : raster :=
  {| height := h; width := w; transform := north_up; crs := 4326%nat;
     dtype := "float32"; nodata := nd; pixel := fun _ _ => v |}.

Definition folder_of (files : list (string * raster)) : folder :=
  fun filename => dict_get files filename.

Definition empty_folder : folder := folder_of [].

(** Scenario A: only a pH raster, 7.0 everywhere. *)
Definition folder_A : folder :=
  folder_of [("PH.tif"%string, constant_raster 2 3 None (Val 7.0))].
Definition weights_A : weights := [("ph"%string, 100)].

(** Scenario C: fertility all zeros, vegetation index all 1. *)
Definition folder_C : folder :=
  folder_of [("Fertility.tif"%string, constant_raster 2 2 None (Val 0));
             ("NDVI.tif"%string, constant_raster 2 2 None (Val 1))].
Definition weights_C : weights := [("fertility"%string, 100)].
Definition weights_C_ndvi : weights :=
  [("fertility"%string, 100); ("ndvi"%string, 0)].

(** A pH raster whose only cell is the declared no-data value. *)
Definition folder_missing : folder :=
  folder_of
    [("PH.tif"%string, constant_raster 1 1 (Some (Val (-1))) (Val (-1)))].

(** Only a vegetation-index raster, value 3 (the optimum) everywhere. *)
Definition folder_ndvi3 : folder :=
  folder_of [("NDVI.tif"%string, constant_raster 1 2 None (Val 3))].
Definition weights_ndvi : weights := [("ndvi"%string, 100)].

(** A pH raster of one row: 7.0, 7.0 and a cell holding the declared
    no-data value. *)
Definition raster_gap : raster :=
  {| height := 1; width := 3; transform := north_up; crs := 4326%nat;
     dtype := "float32"; nodata := Some (Val (-9999));
     pixel := fun _ col => if (col <? 2)%nat then Val 7.0 else Val (-9999) |}.
Definition folder_gap : folder := folder_of [("PH.tif"%string, raster_gap)].

End Scenario.

(** An event that opens a factor file present in the folder. *)
Definition opens_existing (fld : folder) (ev : event) : Prop :=
  exists name filename src,
    ev = EvOpen filename /\ In (name, filename) factor_files /\
    fld filename = Some src.

(** ** The blend in the number types of the source

    The engine above computes over exact rationals.  This module repeats
    the numeric steps of [calculate_suitability] in the number types of the
    source: the weights are Python floats (binary64), the cells of the
    composite are float32.  It covers the factors that are scored by a
    chain of [np.where] over Python floats ('ph', 'fertility', 'nitrogen',
    'potassium', 'soc', 'sulphur'), whose scores are float64 arrays; the
    vegetation index, and with it the penalty pass, is left out.  An
    operation of a float32 array with a Python number is a float32
    operation, the number being cast first; one with a float64 array is a
    float64 operation.  A float32 value is held as the binary64 float of
    the same value. *)

Module Float32.

Local Open Scope float_scope.

Definition fgrid := list float.

(** Round to the nearest integer, ties to the even one ([np.rint]): below
    2^52 by adding and subtracting 2^52, at and above it every float is an
    integer. *)
Definition rint (x : float) : float :=
  if abs x <? 0x1p52 then
    if x <? 0 then - ((- x + 0x1p52) - 0x1p52) else (x + 0x1p52) - 0x1p52
  else x.

(** The cast of a binary64 value to float32: the value is rounded to 24
    significant bits, or to a multiple of 2^-149 where float32 is
    subnormal, and becomes infinite from 2^128 on. *)
Definition to_float32 (x : float) : float :=
  if (is_nan x || is_infinity x || is_zero x)%bool then x
  else
    let e := snd (Z.frexp x) in
    let k := Z.max (e - 24) (-149) in
    let r := Z.ldexp (rint (Z.ldexp x (- k))) k in
    if 0x1p128 <=? abs r then (if x <? 0 then neg_infinity else infinity)
    else r.

(** Multiplication and division of float32 values. *)
Definition mul32 (x y : float) : float := to_float32 (x * y).
Definition div32 (x y : float) : float := to_float32 (x / y).

(** [sum(weights.values())] and [x / y] on Python floats. *)
Definition py_sum (l : list float) : float := fold_left PrimFloat.add l 0.

Definition py_div (x y : float) : outcome float :=
  if y =? 0 then Raise ZeroDivisionError else Return (x / y).

(** [{k: (v / total_weight) * 100 for k, v in weights.items()}]. *)
Fixpoint rescale_weights (total_weight : float) (w : list (string * float))
  : outcome (list (string * float)) :=
  match w with
  | [] => Return []
  | (k, v) :: rest =>
      match py_div v total_weight with
      | Raise e => Raise e
      | Return q =>
          match rescale_weights total_weight rest with
          | Raise e => Raise e
          | Return rest' => Return ((k, q * 100) :: rest')
          end
      end
  end.

Definition normalize_weights (w : list (string * float))
  : outcome (list (string * float)) :=
  let total_weight := py_sum (map snd w) in
  if negb (total_weight =? 100) then rescale_weights total_weight w
  else Return w.

Record blend_state : Type := mkBlend {
  suitability : fgrid;
  total_weights_used : float
}.

(** [suitability[valid_mask] += normalized_data[valid_mask] * weight] in
    one cell: the product and the sum are float64, the sum is stored as
    float32. *)
Definition acc_cell (weight : float) (s n : float) : float :=
  if is_nan n then s else to_float32 (s + n * weight).

(** One turn of the loop, for a factor whose raster was loaded. *)
Definition blend_step (w : list (string * float)) (st : blend_state)
  (factor : string * fgrid) : blend_state :=
  match dict_get w (fst factor) with
  | None => st
  | Some wv =>
      let weight := wv / 100 in
      {| suitability := map2 (acc_cell weight) (suitability st) (snd factor);
         total_weights_used := total_weights_used st + weight |}
  end.

(** The loop and the division by the weight applied.  [loaded] holds the
    scores of the factors whose file exists, in the order of the loop, on a
    grid of [n] cells. *)
Definition blended (w : list (string * float))
  (loaded : list (string * fgrid)) (n : nat) : fgrid :=
  let st := fold_left (blend_step w) loaded
              {| suitability := repeat 0 n; total_weights_used := 0 |} in
  if 0 <? total_weights_used st
  then map (fun s => div32 s (to_float32 (total_weights_used st)))
           (suitability st)
  else suitability st.

(** [np.round(x, 1)], [x * 100] and [np.clip(x, 0, 100)] on a float32
    cell. *)
Definition round1 (x : float) : float := div32 (rint (mul32 x 10)) 10.

Definition clip (x : float) : float :=
  let v1 := if x <? 0 then 0 else x in
  if 100 <? v1 then 100 else v1.

Definition rescale (x : float) : float := clip (mul32 x 100).

Definition calculate_suitability (w : list (string * float))
  (loaded : list (string * fgrid)) (n : nat) : outcome fgrid :=
  match normalize_weights w with
  | Raise e => Raise e
  | Return w' => Return (map (fun x => rescale (round1 x)) (blended w' loaded n))
  end.

(** [output_data[np.isnan(output_data)] = meta['nodata']]. *)
Definition fill_nodata (data : fgrid) : fgrid :=
  map (fun c => if is_nan c then -9999 else c) data.

End Float32.

(** ** The web API ([backend/api_server.py])

    The request handlers are modelled as functions of the request and of
    the state they read; the body of the background thread is modelled as
    the function it computes when it runs to completion.  Scheduling and
    the interleaving with other requests are not modelled. *)

Module ApiServer.

(** *** The layer name: [re.sub(r'[^a-zA-Z0-9_-]', '_', custom_name)],
    [.strip('_')] and [[:50]] *)

Definition char_in (lo hi c : ascii) : bool :=
  (nat_of_ascii lo <=? nat_of_ascii c)%nat &&
  (nat_of_ascii c <=? nat_of_ascii hi)%nat.

(** The character class [a-zA-Z0-9_-]. *)
Definition allowed (c : ascii) : bool :=
  char_in "a"%char "z"%char c || char_in "A"%char "Z"%char c ||
  char_in "0"%char "9"%char c ||
  (c =? "_")%char || (c =? "-")%char.

Fixpoint re_sub_unsafe (s : string) : string :=
  match s with
  | EmptyString => EmptyString
  | String c rest =>
      String (if allowed c then c else "_"%char) (re_sub_unsafe rest)
  end.

Fixpoint lstrip (s : string) : string :=
  match s with
  | EmptyString => EmptyString
  | String c rest => if (c =? "_")%char then lstrip rest else s
  end.

Fixpoint rstrip (s : string) : string :=
  match s with
  | EmptyString => EmptyString
  | String c rest =>
      match rstrip rest with
      | EmptyString =>
          if (c =? "_")%char then EmptyString else String c EmptyString
      | kept => String c kept
      end
  end.

Definition strip (s : string) : string := rstrip (lstrip s).

(** [s[:n]]. *)
Fixpoint slice_to (n : nat) (s : string) : string :=
  match n, s with
  | S k, String c rest => String c (slice_to k rest)
  | _, _ => EmptyString
  end.

Definition safe_name (custom_name : string) : string :=
  slice_to 50 (strip (re_sub_unsafe custom_name)).

Fixpoint string_forall (p : ascii -> bool) (s : string) : bool :=
  match s with
  | EmptyString => true
  | String c rest => p c && string_forall p rest
  end.

(** Whether the first, or the last, character of a string is [c0]. *)
Definition head_is (c0 : ascii) (s : string) : bool :=
  match s with
  | EmptyString => false
  | String c _ => (c =? c0)%char
  end.

Fixpoint last_is (c0 : ascii) (s : string) : bool :=
  match s with
  | EmptyString => false
  | String c EmptyString => (c =? c0)%char
  | String _ rest => last_is c0 rest
  end.

Definition output_filename (safe : string) : string :=
  ("suitability_" ++ safe ++ ".tif")%string.

(** *** [update_files_json]

    [files.json] holds a list of file names; [None] is a missing file. *)

Definition update_files_json (files_json : option (list string))
  (new_filename : string) : option (list string) :=
  let files_list := match files_json with Some l => l | None => [] end in
  if existsb (String.eqb new_filename) files_list
  then files_json
  else Some (files_list ++ [new_filename]).

(** *** The statistics of a result *)

Inductive server_exn : Type :=
| CoreError (e : exn)
| ValueError.

Inductive attempt (A : Type) : Type :=
| Done (a : A)
| Threw (e : server_exn).
Arguments Done {A} a.
Arguments Threw {A} e.

Definition valid_values (g : grid) : list Q :=
  flat_map (fun c => match c with NaN => [] | Val q => [q] end) g.

Definition Qmin2 (a b : Q) : Q := if Qle_bool a b then a else b.
Definition Qmax2 (a b : Q) : Q := if Qle_bool a b then b else a.

(** [np.nanmin] and [np.nanmax]: an error on an empty array, NaN (with a
    warning) when every cell is NaN. *)
Definition nan_reduce (f : Q -> Q -> Q) (g : grid) : attempt cell :=
  match g with
  | [] => Threw ValueError
  | _ =>
      match valid_values g with
      | [] => Done NaN
      | q :: rest => Done (Val (fold_left f rest q))
      end
  end.

Definition np_nanmin : grid -> attempt cell := nan_reduce Qmin2.
Definition np_nanmax : grid -> attempt cell := nan_reduce Qmax2.

(** [np.nanmean]: NaN (with a warning) when no cell is valid.  numpy
    accumulates the mean in float32; it is given here in exact arithmetic,
    and the properties below use of it only that it is a number exactly
    when some cell is valid. *)
Definition np_nanmean (g : grid) : cell :=
  match valid_values g with
  | [] => NaN
  | l => Val (py_sum l / inject_Z (Z.of_nat (length l)))
  end.

Record statistics : Type := mkStatistics {
  min_suitability : cell;
  max_suitability : cell;
  mean_suitability : cell
}.

Definition compute_statistics (g : grid) : attempt statistics :=
  match np_nanmin g with
  | Threw e => Threw e
  | Done lo =>
      match np_nanmax g with
      | Threw e => Threw e
      | Done hi => Done (mkStatistics lo hi (np_nanmean g))
      end
  end.

(** *** The analysis job *)

(** The value of [current_analysis] once the job is over. *)
Inductive final_status : Type :=
| Completed (output_file layer_name filename custom_name : string)
            (stats : statistics)
| Failed (e : server_exn).

Record job_result : Type := mkJob {
  job_events : list event;
  job_files_json : option (list string);
  job_status : final_status
}.

(** The required keys of a request: the keys of the default weights. *)
Definition expected_factors : list string := map fst default_weights.

(** The loop [for factor in expected_factors: if factor not in weights]. *)
Fixpoint first_missing (expected : list string) (w : weights)
  : option string :=
  match expected with
  | [] => None
  | factor :: rest =>
      if dict_mem w factor then first_missing rest w else Some factor
  end.

Record request_body : Type := mkRequest {
  req_weights : option weights;
  req_name : option string
}.

Inductive response : Type :=
| BadRequest (message : string)
| Started (analysis_id : Z) (layer_name custom_name : string).

Section Handlers.

Variable reproject :
  Resampling -> grid -> shape -> Affine -> CRS -> Affine -> shape ->
  nat -> cell.

(** [analyzer.data_folder / name], as a string (pathlib). *)
Variable data_path : string -> string.

(** The body of [run_analysis]. *)
Definition run_analysis (fld : folder) (files_json : option (list string))
  (w : weights) (safe custom_name : string) : job_result :=
  match calculate_suitability reproject fld (Some w) with
  | (t, Raise e) => mkJob t files_json (Failed (CoreError e))
  | (t, Return (suitability_data, m)) =>
      let filename := output_filename safe in
      let output_path := data_path filename in
      match save_suitability_raster suitability_data m output_path with
      | (t', Raise e) => mkJob (t ++ t') files_json (Failed (CoreError e))
      | (t', Return _) =>
          let files_json' := update_files_json files_json filename in
          match compute_statistics suitability_data with
          | Threw e => mkJob (t ++ t') files_json' (Failed e)
          | Done stats =>
              mkJob (t ++ t') files_json'
                (Completed output_path safe filename custom_name stats)
          end
      end
  end.

(** The handler of [POST /analyze]: the response, and the result of the
    job it starts, if any.  [now] is the clock reading used as the
    analysis id. *)
Definition analyze_suitability (now : Z) (fld : folder)
  (files_json : option (list string)) (data : option request_body)
  : response * option job_result :=
  match data with
  | None => (BadRequest "Missing 'weights' in request body", None)
  | Some d =>
      match req_weights d with
      | None => (BadRequest "Missing 'weights' in request body", None)
      | Some w =>
          let custom_name :=
            match req_name d with
            | Some n => n
            | None => "Custom_Analysis"%string
            end in
          let safe := safe_name custom_name in
          match first_missing expected_factors w with
          | Some factor =>
              (BadRequest ("Missing weight for factor: " ++ factor)%string, None)
          | None =>
              (Started now safe custom_name,
               Some (run_analysis fld files_json w safe custom_name))
          end
      end
  end.

End Handlers.

(** *** The layer list *)

(** [s.replace(old, new)] for a non-empty [old]: the occurrences are found
    from the left and do not overlap.  [skip] counts the characters of a
    match still to be dropped. *)
Fixpoint replace_from (old new : string) (skip : nat) (s : string)
  : string :=
  match s with
  | EmptyString => EmptyString
  | String c rest =>
      match skip with
      | S k => replace_from old new k rest
      | O =>
          if String.prefix old s
          then (new ++ replace_from old new (String.length old - 1) rest)%string
          else String c (replace_from old new 0 rest)
      end
  end.

Definition str_replace (old new s : string) : string :=
  replace_from old new 0 s.

Record layer_info : Type := mkLayer {
  layer_filename : string;
  layer_exists : bool;
  display_name : string;
  layer_name : string
}.

Section Layers.

(** [(analyzer.data_folder / filename).exists()] and [str.title]. *)
Variable file_exists : string -> bool.
Variable title : string -> string.

Definition layer_of (filename : string) : layer_info :=
  if (filename =? "suitability.tif")%string then
    mkLayer filename (file_exists filename) "Default Suitability" "default"
  else
    let name_part :=
      str_replace ".tif" "" (str_replace "suitability_" "" filename) in
    mkLayer filename (file_exists filename)
      (title (str_replace "_" " " name_part)) name_part.

(** The layers of [GET /layers], from the content of [files.json]. *)
Definition get_available_layers (files_json : option (list string))
  : list layer_info :=
  let all_files := match files_json with Some l => l | None => [] end in
  map layer_of (filter (String.prefix "suitability") all_files).

End Layers.

(** Whether [old] occurs in [s]. *)
Fixpoint occurs (old s : string) : bool :=
  match s with
  | EmptyString => String.prefix old EmptyString
  | String c rest => String.prefix old s || occurs old rest
  end.

End ApiServer.

(** * Properties *)

(** ** Lists and arrays *)

Lemma map2_length {A B C : Type} (f : A -> B -> C) (l : list A)
  (l' : list B) :
  length (map2 f l l') = Nat.min (length l) (length l').
Proof.
  revert l'; induction l as [|a t IH]; intros [|b t']; simpl; auto.
Qed.

Lemma map2_map_map {A B C D : Type} (f : B -> C -> D) (p : A -> B)
  (h : A -> C) (l : list A) :
  map2 f (map p l) (map h l) = map (fun a => f (p a) (h a)) l.
Proof.
  induction l as [|a t IH]; simpl; [reflexivity | now rewrite IH].
Qed.

Lemma map2_map_r {A B C : Type} (f : A -> B -> C) (h : A -> B)
  (l : list A) :
  map2 f l (map h l) = map (fun a => f a (h a)) l.
Proof.
  induction l as [|a t IH]; simpl; [reflexivity | now rewrite IH].
Qed.

Lemma nth_error_map2 {A B C : Type} (f : A -> B -> C) (l : list A)
  (l' : list B) (i : nat) :
  nth_error (map2 f l l') i =
  match nth_error l i, nth_error l' i with
  | Some a, Some b => Some (f a b)
  | _, _ => None
  end.
Proof.
  revert l l'; induction i as [|i IH]; intros [|a t] [|b t']; simpl; auto.
  destruct (nth_error t i); reflexivity.
Qed.

Lemma nth_error_in_range {A : Type} (l : list A) (i : nat) :
  (i < length l)%nat -> exists a, nth_error l i = Some a.
Proof.
  intros H. destruct (nth_error l i) as [a|] eqn:E; [now exists a|].
  apply nth_error_None in E. lia.
Qed.

Lemma Forall_nth_error {A : Type} (P : A -> Prop) (l : list A) :
  Forall P l <-> (forall i a, nth_error l i = Some a -> P a).
Proof.
  split.
  - intros H i a E. rewrite Forall_forall in H. apply H.
    eapply nth_error_In; eauto.
  - intros H. apply Forall_forall. intros a Ha.
    apply In_nth_error in Ha. destruct Ha as [i E]. eauto.
Qed.

Lemma masked_add_fused (nd a : grid) (k : Q) :
  masked_add (np_not (np_isnan nd)) a (np_mul nd k) = map2 (acc_cell k) a nd.
Proof.
  unfold masked_add, np_not, np_isnan, np_mul.
  revert a; induction nd as [|n t IH]; intros [|s a']; simpl; auto.
  rewrite IH. unfold acc_cell. destruct (isnan n); reflexivity.
Qed.

(** ** The normalizer, cell by cell *)

Module NormalizerFacts.
Import Normalizer.

Lemma where_ss_select (p : cell -> bool) (x y : Q) (g : grid) :
  where_ss (map p g) x y = map (select_cell [(p, x)] y) g.
Proof.
  unfold where_ss. rewrite map_map. apply map_ext. intros c; simpl.
  destruct (p c); reflexivity.
Qed.

Lemma where_sa_select (p : cell -> bool) (x : Q)
  (cases : list ((cell -> bool) * Q)) (d : Q) (g : grid) :
  where_sa (map p g) x (map (select_cell cases d) g) =
  map (select_cell ((p, x) :: cases) d) g.
Proof.
  unfold where_sa. rewrite map2_map_map. reflexivity.
Qed.

Lemma full_like_select (g : grid) (q : Q) :
  full_like g q = map (select_cell [] q) g.
Proof. reflexivity. Qed.

Lemma restore_missing (h : cell -> cell) (g : grid) :
  set_nan_where (np_not (np_not (np_isnan g))) (map h g) =
  map (fun c => if isnan c then NaN else h c) g.
Proof.
  unfold set_nan_where, np_not, np_isnan. rewrite !map_map.
  rewrite map2_map_map. apply map_ext. intros c.
  now rewrite negb_involutive.
Qed.

Ltac fuse_rule :=
  unfold apply_mapping, phosphorus_mapping, texture_mapping,
    moisture_mapping, np_lt, np_le, np_eq; simpl fold_left;
  try rewrite full_like_select; try rewrite where_ss_select;
  repeat rewrite where_sa_select;
  try (unfold np_clip);
  rewrite restore_missing; reflexivity.

(** The array-level rules agree with the cell-level reading. *)
Lemma normalize_pointwise (g : grid) (factor_name : string) :
  normalize_raster_values g factor_name = map (normalize_cell factor_name) g.
Proof.
  unfold normalize_raster_values, normalize_cell, rule_cell.
  destruct (factor_name =? "ph")%string eqn:Eph.
  { assert (E : (factor_name =? "ndvi")%string = false).
    { apply String.eqb_eq in Eph; subst; reflexivity. }
    rewrite E. fuse_rule. }
  destruct (factor_name =? "fertility")%string eqn:Efe.
  { assert (E : (factor_name =? "ndvi")%string = false).
    { apply String.eqb_eq in Efe; subst; reflexivity. }
    rewrite E. fuse_rule. }
  destruct (factor_name =? "ndvi")%string eqn:End; [reflexivity|].
  repeat match goal with
         | |- context [(factor_name =? ?s)%string] =>
             destruct (factor_name =? s)%string
         end; fuse_rule.
Qed.

Lemma normalize_length (g : grid) (factor_name : string) :
  length (normalize_raster_values g factor_name) = length g.
Proof. rewrite normalize_pointwise. apply length_map. Qed.

(** Every rule but the vegetation-index one keeps a missing cell missing. *)
Lemma normalize_cell_missing (factor_name : string) :
  (factor_name =? "ndvi")%string = false ->
  normalize_cell factor_name NaN = NaN.
Proof. intros H. unfold normalize_cell. now rewrite H. Qed.

Lemma normalize_cell_ndvi_missing : normalize_cell "ndvi" NaN = Val 0.
Proof. reflexivity. Qed.

Lemma normalize_keeps_missing (g : grid) (factor_name : string) (i : nat) :
  factor_name <> "ndvi"%string ->
  nth_error g i = Some NaN ->
  nth_error (normalize_raster_values g factor_name) i = Some NaN.
Proof.
  intros Hn Hi. rewrite normalize_pointwise, nth_error_map, Hi. simpl.
  f_equal. apply normalize_cell_missing. now apply String.eqb_neq.
Qed.

End NormalizerFacts.

(** ** The monad *)

Lemma result_bind {A B : Type} (m : io A) (f : A -> io B) :
  result (bind m f) =
  match result m with
  | Return a => result (f a)
  | Raise e => Raise e
  end.
Proof.
  destruct m as [t [a|e]]; simpl; [destruct (f a)|]; reflexivity.
Qed.

Lemma trace_bind {A B : Type} (m : io A) (f : A -> io B) :
  trace (bind m f) =
  match result m with
  | Return a => trace m ++ trace (f a)
  | Raise e => trace m
  end.
Proof.
  destruct m as [t [a|e]]; simpl; [destruct (f a)|]; reflexivity.
Qed.

(** ** The engine and its trace-free reading *)

Section EngineFacts.

Variable reproject :
  Resampling -> grid -> shape -> Affine -> CRS -> Affine -> shape ->
  nat -> cell.

Variable fld : folder.

Lemma process_factor_result (w : weights) (tt : Affine) (ts : shape)
  (name : string) (st : blend_state) :
  dict_mem factor_files name = true ->
  result (process_factor reproject fld w tt ts name st) =
  Return (factor_step reproject fld w tt ts st name).
Proof.
  unfold dict_mem, process_factor, factor_step, load_and_normalize_factor,
    dict_mem.
  destruct (dict_get factor_files name) as [filename|]; [|discriminate].
  intros _. destruct (dict_get w name) as [wv|]; [|reflexivity].
  destruct (fld filename) as [src|]; [|reflexivity].
  simpl. unfold blend_step, raw_on_grid. now rewrite masked_add_fused.
Qed.

Lemma process_factors_result (w : weights) (tt : Affine) (ts : shape)
  (names : list string) :
  Forall (fun name => dict_mem factor_files name = true) names ->
  forall st,
    result (process_factors reproject fld w tt ts names st) =
    Return (run_factors reproject fld w tt ts names st).
Proof.
  induction 1 as [|name rest Hk _ IH]; intros st; [reflexivity|].
  simpl. rewrite result_bind, process_factor_result by exact Hk.
  apply IH.
Qed.

Lemma factor_names_known :
  Forall (fun name => dict_mem factor_files name = true)
         (map fst factor_files).
Proof. repeat constructor. Qed.

Lemma aggregate_result (w : weights) (tt : Affine) (ts : shape) :
  result (aggregate reproject fld w tt ts) =
  Return (blended reproject fld w tt ts).
Proof.
  unfold aggregate. rewrite result_bind.
  rewrite (process_factors_result w tt ts _ factor_names_known).
  reflexivity.
Qed.

Lemma composite_result (w : weights) (tt : Affine) (ts : shape) :
  result (composite reproject fld w tt ts) =
  Return (penalized reproject fld w tt ts).
Proof.
  unfold composite. rewrite result_bind, aggregate_result.
  unfold ndvi_penalties, penalized.
  destruct (dict_mem (snd (blended reproject fld w tt ts)) "ndvi");
    [|reflexivity].
  simpl. destruct (fld "NDVI.tif"%string); reflexivity.
Qed.

Lemma find_reference_result (files : list (string * string)) :
  result (find_reference fld files) =
  Return (option_map
            (fun src => (src_meta src, transform src, raster_shape src))
            (reference_of fld files)).
Proof.
  induction files as [|[name filename] rest IH]; [reflexivity|].
  simpl. destruct (fld filename); [reflexivity | exact IH].
Qed.

Lemma discretized_result (w : option weights) :
  result (discretized_suitability reproject fld w) =
  match normalize_weights (supplied w) with
  | Raise e => Raise e
  | Return w' =>
      match reference_of fld factor_files with
      | None => Raise FileNotFoundError
      | Some src =>
          Return (discretize
                    (penalized reproject fld w' (transform src)
                       (raster_shape src)),
                  src_meta src)
      end
  end.
Proof.
  unfold discretized_suitability. rewrite result_bind. unfold lift at 1.
  simpl result at 1.
  destruct (normalize_weights (supplied w)) as [w'|e]; [|reflexivity].
  rewrite result_bind, find_reference_result.
  destruct (reference_of fld factor_files) as [src|]; [|reflexivity].
  simpl option_map. cbv iota beta.
  rewrite result_bind, composite_result. reflexivity.
Qed.

Lemma calculate_result (w : option weights) :
  result (calculate_suitability reproject fld w) =
  match normalize_weights (supplied w) with
  | Raise e => Raise e
  | Return w' =>
      match reference_of fld factor_files with
      | None => Raise FileNotFoundError
      | Some src =>
          Return (rescale
                    (discretize
                       (penalized reproject fld w' (transform src)
                          (raster_shape src))),
                  src_meta src)
      end
  end.
Proof.
  unfold calculate_suitability. rewrite result_bind, discretized_result.
  destruct (normalize_weights (supplied w)) as [w'|e]; [|reflexivity].
  destruct (reference_of fld factor_files); reflexivity.
Qed.

(** What a normal return tells. *)
Lemma calculate_returns (w : option weights) (out : grid) (m : meta) :
  result (calculate_suitability reproject fld w) = Return (out, m) ->
  exists w' src,
    normalize_weights (supplied w) = Return w' /\
    reference_of fld factor_files = Some src /\
    m = src_meta src /\
    out = rescale (discretize
                     (penalized reproject fld w' (transform src)
                        (raster_shape src))).
Proof.
  rewrite calculate_result.
  destruct (normalize_weights (supplied w)) as [w'|e]; [|discriminate].
  destruct (reference_of fld factor_files) as [src|]; [|discriminate].
  intros H. injection H as <- <-. now exists w', src.
Qed.

End EngineFacts.

(** ** Shapes *)

Lemma read_band_length (src : raster) :
  length (read_band src) = size_of (raster_shape src).
Proof.
  unfold read_band, size_of, raster_shape; simpl.
  generalize 0%nat at 2. 
  induction (height src) as [|h IH]; intros s; simpl; [reflexivity|].
  rewrite length_app, length_map, length_seq, IH. reflexivity.
Qed.

Lemma mask_nodata_length (nd : option cell) (data : grid) :
  length (mask_nodata nd data) = length data.
Proof.
  destruct nd as [v|]; simpl; [|reflexivity].
  unfold set_nan_where. rewrite map2_length, length_map. apply Nat.min_id.
Qed.

Lemma shape_eqb_eq (s t : shape) : shape_eqb s t = true -> s = t.
Proof.
  destruct s as [a b], t as [c d]. unfold shape_eqb; simpl.
  rewrite andb_true_iff, !Nat.eqb_eq. intros [-> ->]. reflexivity.
Qed.

Lemma where_sa_length (cond : list bool) (x : Q) (y : grid) :
  length cond = length y -> length (where_sa cond x y) = length y.
Proof.
  intros H. unfold where_sa. rewrite map2_length, H. apply Nat.min_id.
Qed.

Lemma where_sa_is_val (cond : list bool) (x : Q) (y : grid) :
  Forall is_val y -> Forall is_val (where_sa cond x y).
Proof.
  unfold where_sa. intros H. revert cond.
  induction H as [|c y' Hc _ IH]; intros [|b cond]; simpl; constructor.
  - destruct b; [exact I | exact Hc].
  - apply IH.
Qed.

Lemma blended_fst
  (reproject : Resampling -> grid -> shape -> Affine -> CRS -> Affine ->
               shape -> nat -> cell)
  (fld : folder) (w : weights) (tt : Affine) (ts : shape) :
  fst (blended reproject fld w tt ts) =
  let st := run_factors reproject fld w tt ts (map fst factor_files)
              (initial_state ts) in
  if Qltb 0 (total_weights_used st)
  then np_div (suitability st) (total_weights_used st)
  else suitability st.
Proof. reflexivity. Qed.

Section ShapeFacts.

Variable reproject :
  Resampling -> grid -> shape -> Affine -> CRS -> Affine -> shape ->
  nat -> cell.
Variables (fld : folder) (w : weights) (tt : Affine) (ts : shape).

Lemma resample_length (m : Resampling) (data : grid) (src : raster) :
  length (resample reproject m data src tt ts) = size_of ts.
Proof. unfold resample. now rewrite length_map, length_seq. Qed.

Lemma raw_on_grid_length (src : raster) :
  length (raw_on_grid reproject src tt ts) = size_of ts.
Proof. apply resample_length. Qed.

Lemma load_ndvi_original_length (src : raster) :
  length (load_ndvi_original reproject src tt ts) = size_of ts.
Proof.
  unfold load_ndvi_original.
  destruct (shape_eqb (raster_shape src) ts) eqn:E; simpl.
  - rewrite mask_nodata_length, read_band_length.
    now rewrite (shape_eqb_eq _ _ E).
  - apply resample_length.
Qed.

(** An invariant of the state is kept by the loop if every effective turn
    keeps it. *)
Lemma run_factors_inv (I : blend_state -> Prop) :
  (forall st name filename wv src,
      dict_get factor_files name = Some filename ->
      dict_get w name = Some wv ->
      fld filename = Some src ->
      I st ->
      I (blend_step st name
           (Normalizer.normalize_raster_values
              (raw_on_grid reproject src tt ts) name)
           (wv / 100))) ->
  forall names st, I st -> I (run_factors reproject fld w tt ts names st).
Proof.
  intros Hstep names. unfold run_factors.
  induction names as [|name rest IH]; intros st Hst; simpl; [exact Hst|].
  apply IH. unfold factor_step.
  destruct (dict_get factor_files name) as [filename|] eqn:Ef; [|exact Hst].
  destruct (dict_get w name) as [wv|] eqn:Ew; [|exact Hst].
  destruct (fld filename) as [src|] eqn:Es; [|exact Hst].
  eapply Hstep; eauto.
Qed.

Lemma acc_cell_is_val (k : Q) (s n : cell) :
  is_val s -> is_val (acc_cell k s n).
Proof. destruct s, n; simpl; auto. Qed.

Lemma map2_acc_is_val (k : Q) (a nd : grid) :
  Forall is_val a -> Forall is_val (map2 (acc_cell k) a nd).
Proof.
  intros H. revert nd.
  induction H as [|s a' Hs _ IH]; intros [|n nd]; simpl; constructor.
  - now apply acc_cell_is_val.
  - apply IH.
Qed.

Lemma run_factors_well_shaped (names : list string) :
  well_shaped ts
    (run_factors reproject fld w tt ts names (initial_state ts)).
Proof.
  apply (run_factors_inv (well_shaped ts)).
  - intros st name filename wv src _ _ _ [Hlen Hval]. split; simpl.
    + rewrite map2_length, Hlen, NormalizerFacts.normalize_length,
        raw_on_grid_length. apply Nat.min_id.
    + now apply map2_acc_is_val.
  - split; simpl; unfold np_zeros.
    + apply repeat_length.
    + apply Forall_forall. intros c Hc. apply repeat_spec in Hc.
      now subst c.
Qed.

Lemma np_div_is_val (a : grid) (k : Q) :
  Forall is_val a -> Forall is_val (np_div a k).
Proof.
  unfold np_div. intros H. apply Forall_map.
  eapply Forall_impl; [|exact H]. intros [|q]; simpl; auto.
Qed.

Lemma blended_well_shaped :
  length (fst (blended reproject fld w tt ts)) = size_of ts /\
  Forall is_val (fst (blended reproject fld w tt ts)).
Proof.
  destruct (run_factors_well_shaped (map fst factor_files)) as [Hlen Hval].
  rewrite blended_fst. cbv zeta.
  set (st := run_factors reproject fld w tt ts (map fst factor_files)
               (initial_state ts)) in *.
  clearbody st.
  destruct (Qltb 0 (total_weights_used st)); split; auto.
  - unfold np_div. now rewrite length_map.
  - now apply np_div_is_val.
Qed.

Lemma apply_penalties_length (raw s : grid) :
  length raw = length s -> length (apply_penalties raw s) = length s.
Proof.
  intros H. unfold apply_penalties.
  assert (Hpoor : length (np_or (np_eq raw 1) (np_eq raw 2)) = length s).
  { unfold np_or, np_eq. rewrite map2_length, !length_map, H.
    apply Nat.min_id. }
  rewrite where_sa_length; rewrite where_sa_length; auto.
  unfold np_eq. now rewrite length_map.
Qed.

Lemma penalized_well_shaped :
  length (penalized reproject fld w tt ts) = size_of ts /\
  Forall is_val (penalized reproject fld w tt ts).
Proof.
  destruct blended_well_shaped as [Hlen Hval]. unfold penalized.
  destruct (dict_mem _ _); [|now split].
  destruct (fld "NDVI.tif"%string) as [src|]; [|now split].
  split.
  - rewrite apply_penalties_length; [exact Hlen|].
    now rewrite load_ndvi_original_length, Hlen.
  - unfold apply_penalties. now do 2 apply where_sa_is_val.
Qed.

End ShapeFacts.

(** ** Rounding, rescaling and clipping *)

Lemma Qltb_true (a b : Q) : Qltb a b = true -> a < b.
Proof.
  unfold Qltb. rewrite negb_true_iff. intros H.
  apply Qnot_le_lt. intros Hle. apply Qle_bool_iff in Hle. congruence.
Qed.

Lemma Qltb_false (a b : Q) : Qltb a b = false -> b <= a.
Proof.
  unfold Qltb. rewrite negb_false_iff. apply Qle_bool_iff.
Qed.

Lemma clip_cell_bounds (lo hi v : Q) :
  lo <= hi ->
  exists q, clip_cell lo hi (Val v) = Val q /\ lo <= q <= hi.
Proof.
  intros Hlh. simpl. eexists; split; [reflexivity|].
  destruct (Qltb v lo) eqn:E1.
  - destruct (Qltb hi lo) eqn:E2.
    + apply Qltb_true in E2. lra.
    + lra.
  - apply Qltb_false in E1. destruct (Qltb hi v) eqn:E2.
    + lra.
    + apply Qltb_false in E2. lra.
Qed.

Lemma rescale_length (s : grid) :
  length (rescale (discretize s)) = length s.
Proof.
  unfold rescale, discretize, np_clip, np_mul, np_round1.
  now rewrite !length_map.
Qed.

Lemma rescale_nth_error (s : grid) (i : nat) :
  nth_error (rescale (discretize s)) i =
  option_map (fun c => clip_cell 0 100 (cell_mul (round1_cell c) 100))
             (nth_error s i).
Proof.
  unfold rescale, discretize, np_clip, np_mul, np_round1.
  rewrite !nth_error_map. destruct (nth_error s i); reflexivity.
Qed.

Lemma rescale_bounded (s : grid) :
  Forall is_val s ->
  Forall (fun c => exists q, c = Val q /\ 0 <= q <= 100)
         (rescale (discretize s)).
Proof.
  intros H. unfold rescale, discretize, np_clip, np_mul, np_round1.
  do 3 apply Forall_map. eapply Forall_impl; [|exact H].
  intros [|q] Hq; [destruct Hq|].
  apply clip_cell_bounds. lra.
Qed.

Lemma fill_nodata_valid (m : meta) (data : grid) :
  Forall is_val data -> fill_nodata m data = data.
Proof.
  intros H. unfold fill_nodata. destruct (m_nodata m) as [v|]; [|reflexivity].
  induction H as [|c t Hc _ IH]; simpl; [reflexivity|].
  rewrite IH. destruct c; [destruct Hc | reflexivity].
Qed.

(** ** Weights *)

Lemma fold_Qplus_comp (l : list Q) (a b : Q) :
  a == b -> fold_left Qplus l a == fold_left Qplus l b.
Proof.
  revert a b; induction l as [|v t IH]; intros a b H; simpl; [exact H|].
  apply IH. now rewrite H.
Qed.

Lemma fold_Qplus_scaled (f : Q -> Q) (k : Q) (l : list Q) :
  (forall v, f v == v * k) ->
  forall a b, b == a * k ->
    fold_left Qplus (map f l) b == fold_left Qplus l a * k.
Proof.
  intros Hf. induction l as [|v t IH]; intros a b H; simpl; [exact H|].
  apply IH. rewrite H, Hf. ring.
Qed.

Lemma rescale_weights_total (total : Q) (w : weights) :
  Qeq_bool total 0 = false ->
  rescale_weights total w =
  Return (map (fun kv : string * Q => (fst kv, snd kv / total * 100)) w).
Proof.
  intros H. induction w as [|[k v] rest IH]; simpl; [reflexivity|].
  unfold py_div. now rewrite H, IH.
Qed.

Lemma rescale_weights_zero (total : Q) (w : weights) :
  w <> [] -> Qeq_bool total 0 = true ->
  rescale_weights total w = Raise ZeroDivisionError.
Proof.
  intros Hw H. destruct w as [|[k v] rest]; [congruence|].
  simpl. unfold py_div. now rewrite H.
Qed.

Lemma normalize_weights_keys (w w' : weights) :
  normalize_weights w = Return w' -> map fst w' = map fst w.
Proof.
  unfold normalize_weights.
  destruct (Qeq_bool (py_sum (map snd w)) 100); simpl.
  - intros H; injection H as <-; reflexivity.
  - destruct (Qeq_bool (py_sum (map snd w)) 0) eqn:E.
    + destruct w as [|[k v] rest].
      * simpl. intros H; injection H as <-; reflexivity.
      * rewrite rescale_weights_zero by (congruence || exact E).
        discriminate.
    + rewrite rescale_weights_total by exact E.
      intros H; injection H as <-. rewrite map_map. reflexivity.
Qed.

Lemma dict_mem_keys {A B : Type} (d : list (string * A))
  (d' : list (string * B)) (k : string) :
  map fst d' = map fst d -> dict_mem d' k = dict_mem d k.
Proof.
  unfold dict_mem. revert d'.
  induction d as [|[k1 v1] rest IH]; intros [|[k2 v2] rest'] H;
    simpl in *; try discriminate; [reflexivity|].
  injection H as -> H. destruct (k1 =? k)%string; [reflexivity|].
  now apply IH.
Qed.

Lemma Forall2_same_scaled (k : Q) (l : list Q) (f : Q -> Q) :
  (forall v, f v == v * k) ->
  Forall2 (fun v v' => v' == v * k) l (map f l).
Proof.
  intros H. induction l as [|v t IH]; simpl; constructor; auto.
Qed.

(** C6. A weight mapping with a positive total is used rescaled: the keys
    are kept, every value is multiplied by 100 / total, the rescaled values
    sum to 100, a mapping that already sums to 100 is used as it is, and
    these are the weights the engine blends with. *)
Theorem weights_renormalized (w : weights) :
  0 < py_sum (map snd w) ->
  exists w',
    normalize_weights w = Return w' /\
    map fst w' = map fst w /\
    Forall2 (fun v v' => v' == v * (100 / py_sum (map snd w)))
            (map snd w) (map snd w') /\
    py_sum (map snd w') == 100 /\
    (py_sum (map snd w) == 100 -> w' = w) /\
    (forall reproject fld,
        result (calculate_suitability reproject fld (Some w)) =
        match reference_of fld factor_files with
        | None => Raise FileNotFoundError
        | Some src =>
            Return (rescale
                      (discretize
                         (penalized reproject fld w' (transform src)
                            (raster_shape src))),
                    src_meta src)
        end).
Proof.
  intros Hpos.
  assert (Hused : forall w', normalize_weights w = Return w' ->
            forall reproject fld,
              result (calculate_suitability reproject fld (Some w)) =
              match reference_of fld factor_files with
              | None => Raise FileNotFoundError
              | Some src =>
                  Return (rescale
                            (discretize
                               (penalized reproject fld w' (transform src)
                                  (raster_shape src))),
                          src_meta src)
              end).
  { intros w' Hw' reproject fld. rewrite calculate_result. simpl supplied.
    now rewrite Hw'. }
  unfold normalize_weights in *.
  set (total := py_sum (map snd w)) in *.
  destruct (Qeq_bool total 100) eqn:E100; simpl in *.
  - apply Qeq_bool_iff in E100. exists w. repeat split; auto.
    replace (map snd w) with (map (fun v : Q => v) (map snd w)) at 2
      by apply map_id.
    apply Forall2_same_scaled. intros v. rewrite E100. field.
  - assert (E0 : Qeq_bool total 0 = false).
    { destruct (Qeq_bool total 0) eqn:E; [|reflexivity].
      apply Qeq_bool_iff in E. lra. }
    assert (Hne : ~ total == 0).
    { intros H. apply Qeq_bool_iff in H. congruence. }
    rewrite (rescale_weights_total total w E0) in *.
    eexists; split; [reflexivity|].
    assert (Hsnd : map snd
              (map (fun kv : string * Q => (fst kv, snd kv / total * 100)) w)
              = map (fun v => v / total * 100) (map snd w)).
    { rewrite !map_map. reflexivity. }
    repeat split.
    + rewrite map_map. reflexivity.
    + rewrite Hsnd. apply Forall2_same_scaled. intros v. now field.
    + rewrite Hsnd. unfold py_sum.
      rewrite (fold_Qplus_scaled (fun v => v / total * 100) (100 / total)
                 (map snd w)) with (a := 0).
      * fold (py_sum (map snd w)). fold total. now field.
      * intros v. now field.
      * ring.
    + intros H. apply Qeq_bool_iff in H. congruence.
    + now apply Hused.
Qed.

Lemma weights_renormalized_witness :
  exists w',
    normalize_weights [("fertility"%string, 30); ("moisture"%string, 20)]
    = Return w' /\
    py_sum (map snd w') == 100.
Proof.
  destruct (weights_renormalized
              [("fertility"%string, 30); ("moisture"%string, 20)])
    as [w' [H1 [_ [_ [H2 _]]]]].
  - reflexivity.
  - exists w'. split; [exact H1 | exact H2].
Defined.

(** C10. A non-empty weight mapping whose values sum to 0 makes the engine
    fail with a division by zero during the renormalization, before any
    raster is opened, whatever the data folder holds. *)
Theorem zero_total_divides_by_zero
  (reproject : Resampling -> grid -> shape -> Affine -> CRS -> Affine ->
               shape -> nat -> cell)
  (fld : folder) (w : weights) :
  w <> [] ->
  py_sum (map snd w) == 0 ->
  calculate_suitability reproject fld (Some w)
  = ([], Raise ZeroDivisionError).
Proof.
  intros Hne H0.
  assert (Hn : normalize_weights w = Raise ZeroDivisionError).
  { unfold normalize_weights.
    assert (E : Qeq_bool (py_sum (map snd w)) 100 = false).
    { destruct (Qeq_bool (py_sum (map snd w)) 100) eqn:E; [|reflexivity].
      apply Qeq_bool_iff in E. rewrite H0 in E. discriminate. }
    rewrite E. simpl. apply rescale_weights_zero; [exact Hne|].
    now apply Qeq_bool_iff. }
  unfold calculate_suitability, discretized_suitability. simpl supplied.
  rewrite Hn. reflexivity.
Qed.

Lemma zero_total_divides_by_zero_witness :
  calculate_suitability coregistered_reproject Scenario.folder_A
    (Some [("ph"%string, 5); ("soc"%string, -5)])
  = ([], Raise ZeroDivisionError).
Proof.
  apply zero_total_divides_by_zero.
  - discriminate.
  - reflexivity.
Defined.

(** ** A folder without rasters *)

Lemma find_reference_none
  (fld : folder) (files : list (string * string)) :
  (forall name filename, In (name, filename) files -> fld filename = None) ->
  find_reference fld files = ([], Return None).
Proof.
  induction files as [|[name filename] rest IH]; intros H; [reflexivity|].
  simpl. rewrite (H name filename) by now left.
  apply IH. intros n f Hin. apply (H n f). now right.
Qed.

Lemma normalize_weights_succeeds (w : weights) :
  w = [] \/ ~ py_sum (map snd w) == 0 ->
  exists w', normalize_weights w = Return w'.
Proof.
  intros H. unfold normalize_weights.
  destruct (Qeq_bool (py_sum (map snd w)) 100); simpl; [now exists w|].
  destruct H as [-> | H]; [now exists []|].
  rewrite rescale_weights_total; [eauto|].
  destruct (Qeq_bool (py_sum (map snd w)) 0) eqn:E; [|reflexivity].
  apply Qeq_bool_iff in E. contradiction.
Qed.

(** C7, as the code has it.  With no raster file for any known factor the
    engine raises: the configuration error whenever the renormalization of
    the weights goes through (the mapping is empty or its total is not 0),
    and in every case some exception, without opening a file; [main] then
    writes no raster and exits with status 1. *)
Theorem no_raster_is_fatal
  (reproject : Resampling -> grid -> shape -> Affine -> CRS -> Affine ->
               shape -> nat -> cell)
  (fld : folder) (w : option weights) :
  (forall name filename,
      In (name, filename) factor_files -> fld filename = None) ->
  (supplied w = [] \/ ~ py_sum (map snd (supplied w)) == 0 ->
   calculate_suitability reproject fld w = ([], Raise FileNotFoundError)) /\
  (exists e, calculate_suitability reproject fld w = ([], Raise e)) /\
  (forall output, main reproject fld w output = ([], Return 1%Z)).
Proof.
  intros Hempty.
  assert (Hcases :
            calculate_suitability reproject fld w
            = ([], Raise FileNotFoundError) \/
            calculate_suitability reproject fld w
            = ([], Raise ZeroDivisionError) /\
            ~ (supplied w = [] \/ ~ py_sum (map snd (supplied w)) == 0)).
  { unfold calculate_suitability, discretized_suitability.
    destruct (normalize_weights (supplied w)) as [w'|e] eqn:En.
    - left. cbv beta iota delta [bind lift].
      rewrite (find_reference_none fld factor_files Hempty). reflexivity.
    - right. destruct e.
      + split; [reflexivity|]. intros Hok.
        destruct (normalize_weights_succeeds _ Hok) as [w' Hw'].
        congruence.
      + exfalso. revert En. unfold normalize_weights.
        destruct (Qeq_bool _ 100); simpl; [discriminate|].
        generalize (py_sum (map snd (supplied w))). intros t.
        induction (supplied w) as [|[k v] rest IH]; simpl; [discriminate|].
        unfold py_div. destruct (Qeq_bool t 0); [discriminate|].
        destruct (rescale_weights t rest); [discriminate|exact IH].
      + exfalso. revert En. unfold normalize_weights.
        destruct (Qeq_bool _ 100); simpl; [discriminate|].
        generalize (py_sum (map snd (supplied w))). intros t.
        induction (supplied w) as [|[k v] rest IH]; simpl; [discriminate|].
        unfold py_div. destruct (Qeq_bool t 0); [discriminate|].
        destruct (rescale_weights t rest); [discriminate|exact IH]. }
  split; [|split].
  - intros Hok. destruct Hcases as [H | [_ H]]; [exact H | contradiction].
  - destruct Hcases as [H | [H _]]; eauto.
  - intros output. unfold main.
    destruct Hcases as [H | [H _]]; rewrite H; reflexivity.
Qed.

Lemma no_raster_is_fatal_witness :
  calculate_suitability coregistered_reproject Scenario.empty_folder None
  = ([], Raise FileNotFoundError) /\
  main coregistered_reproject Scenario.empty_folder None "data/suitability.tif"
  = ([], Return 1%Z).
Proof.
  destruct (no_raster_is_fatal coregistered_reproject Scenario.empty_folder
              None) as [H1 [_ H3]].
  - intros name filename _. reflexivity.
  - split; [apply H1 | apply H3].
    right. vm_compute. discriminate.
Defined.

(** The claim as the specification words it does not hold for a mapping
    that sums to 0: the division fails first. *)
Lemma no_raster_zero_total_counterexample :
  (forall name filename,
      In (name, filename) factor_files ->
      Scenario.empty_folder filename = None) /\
  result (calculate_suitability coregistered_reproject Scenario.empty_folder
            (Some [("ph"%string, 0)]))
  = Raise ZeroDivisionError /\
  result (calculate_suitability coregistered_reproject Scenario.empty_folder
            (Some [("ph"%string, 0)]))
  <> Raise FileNotFoundError.
Proof.
  split; [intros name filename _; reflexivity|].
  split; [reflexivity | discriminate].
Qed.

(** ** The composite grid holds numbers only *)

Lemma save_outcome (data : grid) (m : meta) (path : string) :
  save_suitability_raster data m path
  = match dirname path with
    | EmptyString => ([], Raise FileNotFoundError)
    | String _ _ as dir =>
        ([EvMakedirs dir;
          EvWrite path (output_meta m) (fill_nodata (output_meta m) data)],
         Return path)
    end.
Proof.
  unfold save_suitability_raster. destruct (dirname path); reflexivity.
Qed.

Lemma save_valid_grid (data : grid) (m : meta) (path : string) :
  Forall is_val data ->
  save_suitability_raster data m path
  = match dirname path with
    | EmptyString => ([], Raise FileNotFoundError)
    | String _ _ as dir =>
        ([EvMakedirs dir; EvWrite path (output_meta m) data], Return path)
    end.
Proof.
  intros H. rewrite save_outcome.
  now rewrite fill_nodata_valid by exact H.
Qed.

(** C9, in exact arithmetic.  On a normal return the grid has the
    reference shape and every cell is a number between 0 and 100, cells
    whose every input is missing included; so saving it replaces nothing by
    the no-data value -9999: when the output path has a directory part, the
    raster written is the grid itself (and for a path without one the save
    raises before it writes). *)
Theorem composite_never_missing
  (reproject : Resampling -> grid -> shape -> Affine -> CRS -> Affine ->
               shape -> nat -> cell)
  (fld : folder) (w : option weights) (out : grid) (m : meta) :
  result (calculate_suitability reproject fld w) = Return (out, m) ->
  length out = (m_height m * m_width m)%nat /\
  Forall (fun c => exists q, c = Val q /\ 0 <= q <= 100) out /\
  Forall (fun c => ~ c =c= Val (-9999)) out /\
  (forall path,
      save_suitability_raster out m path
      = match dirname path with
        | EmptyString => ([], Raise FileNotFoundError)
        | String _ _ as dir =>
            ([EvMakedirs dir; EvWrite path (output_meta m) out], Return path)
        end).
Proof.
  intros H. apply calculate_returns in H.
  destruct H as (w' & src & _ & _ & -> & ->).
  destruct (penalized_well_shaped reproject fld w' (transform src)
              (raster_shape src)) as [Hlen Hval].
  pose proof (rescale_bounded _ Hval) as Hb.
  split; [|split; [|split]].
  - now rewrite rescale_length, Hlen.
  - exact Hb.
  - eapply Forall_impl; [|exact Hb]. intros c (q & -> & Hq) Hs.
    simpl in Hs. lra.
  - intros path. apply save_valid_grid.
    eapply Forall_impl; [|exact Hb]. now intros c (q & -> & _).
Qed.

Lemma composite_never_missing_witness :
  exists out m,
    result (calculate_suitability coregistered_reproject
              Scenario.folder_missing (Some Scenario.weights_A))
    = Return (out, m) /\
    Forall (fun c => exists q, c = Val q /\ 0 <= q <= 100) out /\
    save_suitability_raster out m "data/suitability.tif"
    = ([EvMakedirs "data"; EvWrite "data/suitability.tif" (output_meta m) out],
       Return "data/suitability.tif"%string).
Proof.
  destruct (result (calculate_suitability coregistered_reproject
                      Scenario.folder_missing (Some Scenario.weights_A)))
    as [[out m]|e] eqn:E.
  - exists out, m. split; [reflexivity|].
    destruct (composite_never_missing _ _ _ _ _ E) as (_ & Hb & _ & Hsave).
    split; [exact Hb | exact (Hsave "data/suitability.tif"%string)].
  - vm_compute in E. discriminate.
Defined.

(** In scenario A with the weights {ph: 100} the arithmetic of the source
    gives 100 in every cell, as the exact reading does. *)
Lemma float32_scenario_A :
  Float32.calculate_suitability [("ph"%string, 100%float)]
    [("ph"%string, repeat 1%float 6)] 6
  = Return (repeat 100%float 6).
Proof. vm_compute. reflexivity. Qed.

(** The claim as the specification words it fails in the arithmetic of the
    source.  In scenario A (the pH raster scores 1 in each of its six
    cells) with the weights {ph: 1e200, soc: -1e200, texture: 1e-200}, the
    total is 1e-200 and the renormalized weight of the pH factor is
    infinite; the accumulated cell and the weight applied are infinite, and
    their quotient is NaN.  The call returns normally, every cell of the
    grid is NaN, and the save writes -9999 in every cell. *)
#[warnings="-inexact-float"] Lemma overflowing_weights_counterexample :
  (exists scores m,
      result (load_and_normalize_factor coregistered_reproject
                Scenario.folder_A "ph" (Some Scenario.north_up)
                (Some (2, 3)%nat))
      = Return (Some (scores, m)) /\
      length scores = 6%nat /\ Forall (fun c => c =c= Val 1) scores) /\
  exists out,
    Float32.calculate_suitability
      [("ph"%string, 1e200%float); ("soc"%string, (-1e200)%float);
       ("texture"%string, 1e-200%float)]
      [("ph"%string, repeat 1%float 6)] 6
    = Return out /\
    length out = 6%nat /\
    Forall (fun c => PrimFloat.is_nan c = true) out /\
    Forall (fun c => c = (-9999)%float) (Float32.fill_nodata out).
Proof.
  split.
  - eexists. eexists. split; [lazy; reflexivity|].
    split; [reflexivity|]. repeat constructor.
  - eexists. split; [vm_compute; reflexivity|].
    split; [reflexivity|]. split; repeat constructor.
Qed.

(** ** The penalty pass, cell by cell *)

Lemma apply_penalties_nth (raw s : grid) (i : nat) (c v : cell) :
  nth_error raw i = Some c ->
  nth_error s i = Some v ->
  nth_error (apply_penalties raw s) i =
  Some (if cell_eq 5 c then Val 0.2
        else if cell_eq 1 c || cell_eq 2 c then Val 0.1 else v).
Proof.
  intros Hc Hv. unfold apply_penalties, where_sa, np_or, np_eq.
  rewrite !nth_error_map2, !nth_error_map, Hc, Hv. reflexivity.
Qed.

Lemma cell_eq_eqv (q : Q) (c : cell) : cell_eq q c = true <-> c =c= Val q.
Proof.
  destruct c as [|v]; simpl; [split; [discriminate | tauto]|].
  apply Qeq_bool_iff.
Qed.


Lemma dict_mem_set {A : Type} (d : list (string * A)) (k k' : string)
  (v : A) :
  dict_mem (dict_set d k v) k' = ((k =? k')%string || dict_mem d k').
Proof.
  unfold dict_mem. induction d as [|[k1 v1] rest IH]; simpl.
  - destruct (k =? k')%string; reflexivity.
  - destruct (k1 =? k)%string eqn:E1; simpl.
    + apply String.eqb_eq in E1. subst k1.
      destruct (k =? k')%string; reflexivity.
    + destruct (k1 =? k')%string eqn:E2; [now rewrite orb_true_r|].
      exact IH.
Qed.

Section OverlayFacts.

Variable reproject :
  Resampling -> grid -> shape -> Affine -> CRS -> Affine -> shape ->
  nat -> cell.
Variables (fld : folder) (w : weights) (tt : Affine) (ts : shape).

Lemma factor_step_mem (st : blend_state) (name k : string) :
  dict_mem (normalized_factors (factor_step reproject fld w tt ts st name)) k
  = (dict_mem (normalized_factors st) k
     || ((name =? k)%string && contributes fld w name)).
Proof.
  unfold factor_step, contributes.
  destruct (dict_get factor_files name) as [filename|];
    [|now rewrite andb_false_r, orb_false_r].
  destruct (dict_get w name) as [wv|];
    [|now rewrite andb_false_r, orb_false_r].
  destruct (fld filename) as [src|];
    [|now rewrite andb_false_r, orb_false_r].
  simpl. rewrite dict_mem_set, andb_true_r. apply orb_comm.
Qed.

Lemma run_factors_mem (names : list string) (st : blend_state)
  (k : string) :
  dict_mem (normalized_factors (run_factors reproject fld w tt ts names st)) k
  = (dict_mem (normalized_factors st) k
     || existsb (fun name => (name =? k)%string && contributes fld w name)
          names).
Proof.
  unfold run_factors. revert st.
  induction names as [|name rest IH]; intros st; simpl.
  - now rewrite orb_false_r.
  - rewrite IH, factor_step_mem. now rewrite orb_assoc.
Qed.

(** The vegetation index is among the normalized factors exactly when it
    has a weight and its file exists. *)
Lemma blended_has_ndvi :
  dict_mem (snd (blended reproject fld w tt ts)) "ndvi"
  = (dict_mem w "ndvi"
     && match fld "NDVI.tif"%string with Some _ => true | None => false end).
Proof.
  change (snd (blended reproject fld w tt ts))
    with (normalized_factors
            (run_factors reproject fld w tt ts (map fst factor_files)
               (initial_state ts))).
  rewrite run_factors_mem.
  unfold contributes, dict_mem. simpl.
  destruct (dict_get w "ndvi"); destruct (fld "NDVI.tif"%string);
    reflexivity.
Qed.

Lemma penalized_guard :
  penalized reproject fld w tt ts =
  if dict_mem w "ndvi" then
    match fld "NDVI.tif"%string with
    | Some src =>
        apply_penalties (load_ndvi_original reproject src tt ts)
          (fst (blended reproject fld w tt ts))
    | None => fst (blended reproject fld w tt ts)
    end
  else fst (blended reproject fld w tt ts).
Proof.
  unfold penalized. rewrite blended_has_ndvi.
  destruct (dict_mem w "ndvi"); destruct (fld "NDVI.tif"%string);
    reflexivity.
Qed.

End OverlayFacts.



(** ** Cells where every contributing factor is missing *)

Lemma dict_get_In {A : Type} (d : list (string * A)) (k : string) (v : A) :
  dict_get d k = Some v -> In (k, v) d.
Proof.
  induction d as [|[k1 v1] rest IH]; simpl; [discriminate|].
  destruct (k1 =? k)%string eqn:E.
  - apply String.eqb_eq in E. subst k1. intros H; injection H as ->.
    now left.
  - intros H. right. now apply IH.
Qed.

Lemma Qltb_false_intro (a b : Q) : b <= a -> Qltb a b = false.
Proof.
  intros H. unfold Qltb. apply negb_false_iff. now apply Qle_bool_iff.
Qed.

Lemma clip_cell_inside (lo hi v : Q) :
  lo <= v <= hi -> clip_cell lo hi (Val v) = Val v.
Proof.
  intros [H1 H2]. simpl.
  rewrite (Qltb_false_intro v lo H1), (Qltb_false_intro hi v H2).
  reflexivity.
Qed.

Lemma rint_comp (p q : Q) : p == q -> rint p = rint q.
Proof.
  intros H. unfold rint. rewrite (Qfloor_comp _ _ H).
  assert (E : p - inject_Z (Qfloor q) == q - inject_Z (Qfloor q))
    by now rewrite H.
  now rewrite (Qcompare_comp _ _ E _ _ (Qeq_refl (1 # 2))).
Qed.

Lemma zero_cell_final (q : Q) :
  q == 0 -> clip_cell 0 100 (cell_mul (round1_cell (Val q)) 100) =c= Val 0.
Proof.
  intros H. simpl cell_mul. unfold round1.
  assert (E : rint (q * 10) = 0%Z).
  { rewrite (rint_comp (q * 10) 0); [reflexivity|]. rewrite H. ring. }
  rewrite E. rewrite clip_cell_inside; simpl; [reflexivity|].
  split; vm_compute; discriminate.
Qed.

Section MissingCells.

Variable reproject :
  Resampling -> grid -> shape -> Affine -> CRS -> Affine -> shape ->
  nat -> cell.
Variables (fld : folder) (w : weights) (tt : Affine) (ts : shape).
Variable i : nat.

Hypothesis all_missing :
  forall name filename src,
    In (name, filename) factor_files ->
    dict_mem w name = true ->
    fld filename = Some src ->
    nth_error (raw_on_grid reproject src tt ts) i = Some NaN.

Hypothesis in_grid : (i < size_of ts)%nat.

Lemma run_factors_zero_cell (names : list string) :
  exists q,
    nth_error
      (suitability (run_factors reproject fld w tt ts names
                      (initial_state ts))) i = Some (Val q) /\
    q == 0.
Proof.
  apply (run_factors_inv reproject fld w tt ts
           (fun st => exists q,
                nth_error (suitability st) i = Some (Val q) /\ q == 0)).
  - intros st name filename wv src Hf Hw Hs (q & Hq & Hq0). simpl.
    rewrite nth_error_map2, Hq, NormalizerFacts.normalize_pointwise,
      nth_error_map.
    rewrite (all_missing name filename src (dict_get_In _ _ _ Hf));
      [|unfold dict_mem; now rewrite Hw | exact Hs].
    simpl. unfold Normalizer.normalize_cell.
    destruct (name =? "ndvi")%string eqn:E.
    + apply String.eqb_eq in E. subst name.
      eexists; split; [reflexivity|]. rewrite Hq0. ring.
    + exists q. now split.
  - exists 0. split; [|reflexivity]. simpl. unfold np_zeros.
    apply nth_error_repeat. exact in_grid.
Qed.

Lemma blended_zero_cell :
  exists q,
    nth_error (fst (blended reproject fld w tt ts)) i = Some (Val q) /\
    q == 0.
Proof.
  destruct (run_factors_zero_cell (map fst factor_files)) as (q & Hq & Hq0).
  rewrite blended_fst. cbv zeta.
  set (st := run_factors reproject fld w tt ts (map fst factor_files)
               (initial_state ts)) in *.
  clearbody st.
  destruct (Qltb 0 (total_weights_used st)).
  - eexists. unfold np_div. rewrite nth_error_map, Hq. simpl.
    split; [reflexivity|]. rewrite Hq0. unfold Qdiv. ring.
  - now exists q.
Qed.

End MissingCells.

(** C3, as the code has it.  A cell where every contributing factor is
    missing on the target grid is not missing in the result: it reads 0,
    unless the penalty pass finds a raw vegetation-index value 1, 2 or 5
    there and forces 10 or 20. *)
Theorem all_missing_cell_reads_zero
  (reproject : Resampling -> grid -> shape -> Affine -> CRS -> Affine ->
               shape -> nat -> cell)
  (fld : folder) (w : option weights) (out : grid) (m : meta) (i : nat) :
  result (calculate_suitability reproject fld w) = Return (out, m) ->
  (i < length out)%nat ->
  (forall name filename src,
      In (name, filename) factor_files ->
      dict_mem (supplied w) name = true ->
      fld filename = Some src ->
      nth_error (raw_on_grid reproject src (m_transform m)
                   (m_height m, m_width m)) i = Some NaN) ->
  exists v,
    nth_error out i = Some v /\
    (v =c= Val 0 \/
     exists src c,
       dict_mem (supplied w) "ndvi" = true /\
       fld "NDVI.tif"%string = Some src /\
       nth_error (load_ndvi_original reproject src (m_transform m)
                    (m_height m, m_width m)) i = Some c /\
       ((c =c= Val 1 \/ c =c= Val 2) /\ v =c= Val 10 \/
        c =c= Val 5 /\ v =c= Val 20)).
Proof.
  intros H Hi Hmiss. apply calculate_returns in H.
  destruct H as (w' & ref & Hn & _ & -> & ->).
  simpl m_transform in *. simpl m_height in *. simpl m_width in *.
  change (height ref, width ref) with (raster_shape ref) in *.
  set (tt := transform ref) in *. set (ts := raster_shape ref) in *.
  pose proof (normalize_weights_keys _ _ Hn) as Hkeys.
  destruct (penalized_well_shaped reproject fld w' tt ts) as [Hlen _].
  rewrite rescale_length, Hlen in Hi.
  destruct (blended_zero_cell reproject fld w' tt ts i) as (q & Hq & Hq0).
  { intros name filename src Hin Hw Hs.
    apply (Hmiss name filename src Hin); [|exact Hs].
    now rewrite <- (dict_mem_keys (supplied w) w' name Hkeys). }
  { exact Hi. }
  rewrite rescale_nth_error, penalized_guard.
  rewrite (dict_mem_keys (supplied w) w' "ndvi" Hkeys).
  destruct (dict_mem (supplied w) "ndvi") eqn:Hw;
    [|rewrite Hq; eexists; split; [reflexivity|];
      left; now apply zero_cell_final].
  destruct (fld "NDVI.tif"%string) as [src|] eqn:Hsrc;
    [|rewrite Hq; eexists; split; [reflexivity|];
      left; now apply zero_cell_final].
  assert (Hraw : (i < length (load_ndvi_original reproject src tt ts))%nat)
    by now rewrite load_ndvi_original_length.
  destruct (nth_error_in_range _ _ Hraw) as [c Hc].
  rewrite (apply_penalties_nth _ _ _ _ _ Hc Hq). simpl option_map.
  eexists; split; [reflexivity|].
  destruct (cell_eq 5 c) eqn:E5.
  - right. exists src, c. repeat split; auto.
    right. split; [now apply cell_eq_eqv | reflexivity].
  - destruct (cell_eq 1 c || cell_eq 2 c) eqn:E12.
    + right. exists src, c. repeat split; auto.
      left. split; [|reflexivity].
      apply orb_true_iff in E12.
      destruct E12 as [E|E]; [left|right]; now apply cell_eq_eqv.
    + left. now apply zero_cell_final.
Qed.

Lemma all_missing_cell_reads_zero_witness :
  exists out m v,
    result (calculate_suitability coregistered_reproject
              Scenario.folder_missing (Some Scenario.weights_A))
    = Return (out, m) /\
    nth_error out 0 = Some v /\ v =c= Val 0.
Proof.
  destruct (result (calculate_suitability coregistered_reproject
                      Scenario.folder_missing (Some Scenario.weights_A)))
    as [[out m]|e] eqn:E.
  - pose proof E as E'. vm_compute in E'. injection E' as Hout Hm.
    destruct (all_missing_cell_reads_zero coregistered_reproject
                Scenario.folder_missing (Some Scenario.weights_A) out m
                0%nat E)
      as (v & Hv & [H0 | (src & c & Hw & _)]).
    + rewrite <- Hout. simpl. lia.
    + intros name filename src Hin Hw Hs. rewrite <- Hm. simpl in Hin.
      repeat (destruct Hin as [Hin|Hin];
              [injection Hin as <- <-; try discriminate Hw|]);
        [|destruct Hin].
      vm_compute in Hs. injection Hs as <-. reflexivity.
    + exists out, m, v. split; [reflexivity|]. now split.
    + discriminate Hw.
  - vm_compute in E. discriminate.
Defined.

(** The claim as the specification words it fails on a pH raster whose only
    cell is the declared no-data value: the cell is missing for the one
    contributing factor, no vegetation-index raster exists, and the result
    reads 0 there, not missing. *)
Lemma all_missing_cell_counterexample :
  exists out m,
    result (calculate_suitability coregistered_reproject
              Scenario.folder_missing (Some Scenario.weights_A))
    = Return (out, m) /\
    (forall name filename src,
        In (name, filename) factor_files ->
        dict_mem Scenario.weights_A name = true ->
        Scenario.folder_missing filename = Some src ->
        nth_error (raw_on_grid coregistered_reproject src (m_transform m)
                     (m_height m, m_width m)) 0 = Some NaN) /\
    Scenario.folder_missing "NDVI.tif"%string = None /\
    exists v, nth_error out 0 = Some v /\ v =c= Val 0 /\ ~ v =c= NaN.
Proof.
  eexists. eexists. split; [lazy; reflexivity|]. split; [|split].
  - intros name filename src Hin Hw Hs. simpl in Hin.
    repeat (destruct Hin as [Hin|Hin];
            [injection Hin as <- <-; try discriminate Hw|]);
      [|destruct Hin].
    lazy in Hs. injection Hs as <-. reflexivity.
  - reflexivity.
  - eexists. split; [reflexivity|]. split; [reflexivity|]. simpl. tauto.
Qed.

(** ** Scenario A: a pH raster alone *)

Lemma run_factors_skip
  (reproject : Resampling -> grid -> shape -> Affine -> CRS -> Affine ->
               shape -> nat -> cell)
  (fld : folder) (w : weights) (tt : Affine) (ts : shape)
  (names : list string) (st : blend_state) :
  Forall (fun name => contributes fld w name = false) names ->
  run_factors reproject fld w tt ts names st = st.
Proof.
  unfold run_factors. induction 1 as [|name rest Hc _ IH]; simpl; auto.
  assert (E : factor_step reproject fld w tt ts st name = st).
  { revert Hc. unfold contributes, factor_step.
    destruct (dict_get factor_files name); [|reflexivity].
    destruct (dict_get w name); [|reflexivity].
    destruct (fld _); [discriminate | reflexivity]. }
  now rewrite E.
Qed.

Lemma run_factors_app
  (reproject : Resampling -> grid -> shape -> Affine -> CRS -> Affine ->
               shape -> nat -> cell)
  (fld : folder) (w : weights) (tt : Affine) (ts : shape)
  (names names' : list string) (st : blend_state) :
  run_factors reproject fld w tt ts (names ++ names') st
  = run_factors reproject fld w tt ts names'
      (run_factors reproject fld w tt ts names st).
Proof. apply fold_left_app. Qed.

Lemma run_factors_cons
  (reproject : Resampling -> grid -> shape -> Affine -> CRS -> Affine ->
               shape -> nat -> cell)
  (fld : folder) (w : weights) (tt : Affine) (ts : shape)
  (name : string) (names : list string) (st : blend_state) :
  run_factors reproject fld w tt ts (name :: names) st
  = run_factors reproject fld w tt ts names
      (factor_step reproject fld w tt ts st name).
Proof. reflexivity. Qed.

Lemma reference_of_only (fld : folder) (files : list (string * string))
  (target : string) (src : raster) :
  (forall name filename,
      In (name, filename) files -> filename <> target ->
      fld filename = None) ->
  In target (map snd files) ->
  fld target = Some src ->
  reference_of fld files = Some src.
Proof.
  intros Hnone Hin Hsrc.
  induction files as [|[name filename] rest IH]; [destruct Hin|].
  simpl. destruct (string_dec filename target) as [->|Hne].
  - now rewrite Hsrc.
  - rewrite (Hnone name filename) by (now left || exact Hne).
    apply IH.
    + intros n f Hf. apply (Hnone n f). now right.
    + destruct Hin as [Hin|Hin]; [contradiction | exact Hin].
Qed.

Lemma normalize_cell_ph_optimum (q : Q) :
  q == 7.0 -> Normalizer.normalize_cell "ph" (Val q) = Val 1.0.
Proof.
  intros H. unfold Normalizer.normalize_cell, Normalizer.rule_cell. simpl.
  unfold Qltb. rewrite !H. reflexivity.
Qed.

(** C8, as the code has it.  With a pH raster as the only file of the
    folder and weights {ph: 100}, the result lies on the grid of the raster
    and is decided, cell by cell, by the raster as resampled bilinearly onto
    its own grid, which the loader always does: a cell that reads 7.0 after
    the resampling reads 100, a cell that is missing after it reads 0. *)
Theorem ph_only_reads_100
  (reproject : Resampling -> grid -> shape -> Affine -> CRS -> Affine ->
               shape -> nat -> cell)
  (fld : folder) (src : raster) :
  fld "PH.tif"%string = Some src ->
  (forall name filename,
      In (name, filename) factor_files -> filename <> "PH.tif"%string ->
      fld filename = None) ->
  exists out,
    result (calculate_suitability reproject fld (Some [("ph"%string, 100)]))
    = Return (out, src_meta src) /\
    length out = size_of (raster_shape src) /\
    forall i c,
      nth_error (raw_on_grid reproject src (transform src) (raster_shape src))
        i = Some c ->
      exists v,
        nth_error out i = Some v /\
        (forall q, c = Val q -> q == 7.0 -> v =c= Val 100) /\
        (c = NaN -> v =c= Val 0).
Proof.
  intros Hph Hnone.
  set (w := [("ph"%string, 100)]).
  rewrite calculate_result.
  replace (normalize_weights (supplied (Some w))) with (Return w)
    by reflexivity.
  rewrite (reference_of_only fld factor_files "PH.tif" src Hnone)
    by (simpl; tauto || exact Hph).
  set (tt := transform src). set (ts := raster_shape src) in *.
  eexists. split; [reflexivity|].
  destruct (penalized_well_shaped reproject fld w tt ts) as [Hlen _].
  split; [now rewrite rescale_length, Hlen|].
  intros i c Hc.
  assert (Hi : (i < size_of ts)%nat).
  { rewrite <- (raw_on_grid_length reproject tt ts src).
    apply nth_error_Some. congruence. }
  rewrite rescale_nth_error, penalized_guard.
  replace (dict_mem w "ndvi") with false by reflexivity.
  set (nd := Normalizer.normalize_raster_values
               (raw_on_grid reproject src tt ts) "ph").
  assert (Hst : run_factors reproject fld w tt ts (map fst factor_files)
                  (initial_state ts)
                = blend_step (initial_state ts) "ph" nd (100 / 100)).
  { change (map fst factor_files)
      with (["fertility"; "moisture"; "soc"; "ndvi"; "nitrogen";
             "phosphorus"; "potassium"]%string
            ++ "ph"%string :: ["texture"; "sulphur"]%string).
    rewrite run_factors_app, run_factors_cons.
    rewrite !run_factors_skip by (repeat constructor).
    unfold factor_step, w. cbn [dict_get factor_files String.eqb Ascii.eqb
                                  Bool.eqb].
    rewrite Hph. reflexivity. }
  assert (Hnd : nth_error nd i = Some (Normalizer.normalize_cell "ph" c)).
  { unfold nd. rewrite NormalizerFacts.normalize_pointwise, nth_error_map.
    now rewrite Hc. }
  unfold blended. rewrite Hst. simpl fst.
  replace (Qltb 0 (total_weights_used
                     (blend_step (initial_state ts) "ph" nd (100 / 100))))
    with true by reflexivity.
  unfold np_div. rewrite nth_error_map. simpl suitability.
  rewrite nth_error_map2, Hnd. unfold np_zeros.
  rewrite (nth_error_repeat (Val 0) Hi). simpl option_map.
  eexists. split; [reflexivity|]. split.
  - intros q -> Hq. rewrite (normalize_cell_ph_optimum q Hq). reflexivity.
  - intros ->. reflexivity.
Qed.

Lemma ph_only_reads_100_witness :
  exists out m,
    result (calculate_suitability coregistered_reproject Scenario.folder_A
              (Some Scenario.weights_A))
    = Return (out, m) /\
    length out = 6%nat /\
    forall i, (i < 6)%nat -> exists v, nth_error out i = Some v /\ v =c= Val 100.
Proof.
  destruct (ph_only_reads_100 coregistered_reproject Scenario.folder_A
              (Scenario.constant_raster 2 3 None (Val 7.0)))
    as (out & Hout & Hlen & Hcells).
  - reflexivity.
  - intros name filename Hin Hne. simpl in Hin.
    repeat (destruct Hin as [Hin|Hin];
            [injection Hin as <- <-; try reflexivity|]);
      [|destruct Hin].
    now contradiction Hne.
  - exists out, (src_meta (Scenario.constant_raster 2 3 None (Val 7.0))).
    split; [exact Hout|]. split; [exact Hlen|].
    intros i Hi.
    assert (Hc : exists q,
               nth_error (raw_on_grid coregistered_reproject
                            (Scenario.constant_raster 2 3 None (Val 7.0))
                            Scenario.north_up (2, 3)%nat) i
               = Some (Val q) /\ q == 7.0).
    { do 6 (destruct i as [|i];
            [eexists; split; [vm_compute; reflexivity | reflexivity]|]).
      lia. }
    destruct Hc as (q & Hq & H7).
    destruct (Hcells i (Val q) Hq) as (v & Hv & H100 & _).
    exists v. split; [exact Hv | exact (H100 q eq_refl H7)].
Defined.

(** The claim as the specification words it fails on a pH raster with a
    missing cell.  The raster has one row: 7.0, 7.0 and a cell holding the
    declared no-data value, so each of its two valid cells equals 7.0.
    The bilinear resampling makes the second cell, whose right-hand
    neighbour is missing, missing too: the result reads 100, 0, 0, and the
    valid second cell reads 0, not 100. *)
Lemma ph_missing_neighbour_counterexample :
  Scenario.folder_gap "PH.tif"%string = Some Scenario.raster_gap /\
  (forall name filename,
      In (name, filename) factor_files -> filename <> "PH.tif"%string ->
      Scenario.folder_gap filename = None) /\
  mask_nodata (nodata Scenario.raster_gap) (read_band Scenario.raster_gap)
  = [Val 7.0; Val 7.0; NaN] /\
  exists v0 v1 v2 m,
    result (calculate_suitability coregistered_reproject Scenario.folder_gap
              (Some Scenario.weights_A))
    = Return ([v0; v1; v2], m) /\
    v0 =c= Val 100 /\ v1 =c= Val 0 /\ v2 =c= Val 0 /\ ~ v1 =c= Val 100.
Proof.
  split; [reflexivity|]. split.
  - intros name filename Hin Hne. simpl in Hin.
    repeat (destruct Hin as [Hin|Hin];
            [injection Hin as <- <-; try reflexivity|]);
      [|destruct Hin].
    now contradiction Hne.
  - split; [reflexivity|].
    eexists. eexists. eexists. eexists. split; [lazy; reflexivity|].
    repeat split; try reflexivity. intros H. vm_compute in H. discriminate.
Qed.

(** ** Scenario C: when the penalty pass runs *)

(** C1, as the code has it.  The penalty pass is applied exactly when the
    vegetation index has an entry in the weight mapping and its file
    exists; a vegetation-index file without a weight entry applies no
    penalty.  In scenario C (fertility all zeros, vegetation index all 1)
    the weights {fertility: 100} give 100 in every cell, the fertility
    score, and the weights {fertility: 100, ndvi: 0} give 10 in every
    cell. *)
Theorem penalty_pass_needs_weight_entry :
  (forall reproject fld w,
      result (calculate_suitability reproject fld w) =
      match normalize_weights (supplied w) with
      | Raise e => Raise e
      | Return w' =>
          match reference_of fld factor_files with
          | None => Raise FileNotFoundError
          | Some ref =>
              let tt := transform ref in
              let ts := raster_shape ref in
              let blend := fst (blended reproject fld w' tt ts) in
              Return
                (rescale
                   (discretize
                      (if dict_mem (supplied w) "ndvi" then
                         match fld "NDVI.tif"%string with
                         | Some src =>
                             apply_penalties
                               (load_ndvi_original reproject src tt ts) blend
                         | None => blend
                         end
                       else blend)),
                 src_meta ref)
          end
      end) /\
  (exists out m,
      result (calculate_suitability coregistered_reproject Scenario.folder_C
                (Some Scenario.weights_C))
      = Return (out, m) /\
      length out = 4%nat /\ Forall (fun c => c =c= Val 100) out) /\
  (exists out m,
      result (calculate_suitability coregistered_reproject Scenario.folder_C
                (Some Scenario.weights_C_ndvi))
      = Return (out, m) /\
      length out = 4%nat /\ Forall (fun c => c =c= Val 10) out).
Proof.
  split; [|split].
  - intros reproject fld w. rewrite calculate_result.
    destruct (normalize_weights (supplied w)) as [w'|e] eqn:Hn;
      [|reflexivity].
    destruct (reference_of fld factor_files) as [ref|]; [|reflexivity].
    cbv zeta. rewrite penalized_guard.
    now rewrite (dict_mem_keys (supplied w) w' "ndvi"
                   (normalize_weights_keys _ _ Hn)).
  - eexists. eexists. split; [lazy; reflexivity|].
    split; [reflexivity|]. repeat constructor.
  - eexists. eexists. split; [lazy; reflexivity|].
    split; [reflexivity|]. repeat constructor.
Qed.

(** The claim as the specification words it fails in scenario C itself:
    the vegetation-index file exists and holds 1 everywhere, yet with the
    weights {fertility: 100} every cell reads 100, not 10. *)
Lemma penalty_without_weight_counterexample :
  Scenario.folder_C "NDVI.tif"%string
  = Some (Scenario.constant_raster 2 2 None (Val 1)) /\
  exists out m,
    result (calculate_suitability coregistered_reproject Scenario.folder_C
              (Some Scenario.weights_C))
    = Return (out, m) /\
    length out = 4%nat /\
    Forall (fun c => c =c= Val 100 /\ ~ c =c= Val 10) out.
Proof.
  split; [reflexivity|].
  eexists. eexists. split; [lazy; reflexivity|].
  split; [reflexivity|].
  repeat constructor; intros H; vm_compute in H; discriminate.
Qed.

(** ** The vegetation-index rule *)

(** C2 fails on the vegetation-index rule: it returns before the missing
    cells are restored, so a missing cell comes out as the number 0. *)
Theorem ndvi_rule_drops_missing :
  Normalizer.normalize_raster_values [NaN; Val 3] "ndvi"
  = [Val 0; Val 100] /\
  Normalizer.normalize_raster_values [NaN; Val 3] "nitrogen"
  = [NaN; Val 0.0].
Proof. split; reflexivity. Qed.

Lemma ndvi_rule_missing_cell (g : grid) (i : nat) :
  nth_error g i = Some NaN ->
  nth_error (Normalizer.normalize_raster_values g "ndvi") i = Some (Val 0).
Proof.
  intros H.
  now rewrite NormalizerFacts.normalize_pointwise, nth_error_map, H.
Qed.

(** ** Discretization *)

Lemma discretize_multiple (s : grid) (c : cell) :
  In c (discretize s) ->
  c = NaN \/ exists k : Z, c = Val (inject_Z k / 10).
Proof.
  unfold discretize, np_round1. rewrite in_map_iff.
  intros ([|q] & <- & _); [now left|].
  right. exists (rint (q * 10)). reflexivity.
Qed.

(** C5 fails when the vegetation index is blended in: its rule scores on
    the 0-100 scale, so a raster of optimum cells (value 3) with the
    weights {ndvi: 100} gives the composite 100 before the rescale, which
    is none of the eleven bands. *)
Theorem ndvi_blend_leaves_bands :
  exists g m,
    result (discretized_suitability coregistered_reproject
              Scenario.folder_ndvi3 (Some Scenario.weights_ndvi))
    = Return (g, m) /\
    length g = 2%nat /\
    Forall (fun c => c =c= Val 100 /\
                     forall b, In b bands -> ~ c =c= Val b) g.
Proof.
  eexists. eexists. split; [lazy; reflexivity|].
  split; [reflexivity|].
  repeat constructor;
    intros b Hb Hc; simpl in Hb;
    repeat (destruct Hb as [Hb|Hb]; [subst b; vm_compute in Hc;
                                     discriminate|]);
    destruct Hb.
Qed.

(** ** The bands when the vegetation index is not blended in *)

Lemma select_cell_unit (cases : list ((cell -> bool) * Q)) (d : Q)
  (c : cell) :
  Forall (fun pv => 0 <= snd pv <= 1) cases -> 0 <= d <= 1 ->
  exists x, select_cell cases d c = Val x /\ 0 <= x <= 1.
Proof.
  intros H Hd. induction H as [|[p v] rest Hv _ IH]; simpl.
  - now exists d.
  - destruct (p c); [now exists v | exact IH].
Qed.

Ltac unit_cases :=
  apply select_cell_unit;
  [repeat constructor; simpl; lra | lra].

Lemma normalize_cell_unit (name : string) (c : cell) :
  (name =? "ndvi")%string = false ->
  unit_cell (Normalizer.normalize_cell name c).
Proof.
  intros Hn. unfold Normalizer.normalize_cell. rewrite Hn.
  destruct c as [|v]; [now left|]. right. simpl isnan. cbv iota.
  unfold Normalizer.rule_cell. rewrite Hn.
  repeat match goal with
         | |- context [(name =? ?s)%string] => destruct (name =? s)%string
         end;
    try unit_cases.
  apply clip_cell_bounds. lra.
Qed.

Lemma map2_acc_bounded (k T : Q) (a nd : grid) :
  0 <= k ->
  Forall (fun c => exists q, c = Val q /\ 0 <= q <= T) a ->
  Forall unit_cell nd ->
  Forall (fun c => exists q, c = Val q /\ 0 <= q <= T + k)
         (map2 (acc_cell k) a nd).
Proof.
  intros Hk Ha. revert nd.
  induction Ha as [|s a' (q & -> & Hq) _ IH]; intros [|n nd] Hnd; simpl;
    constructor.
  - inversion Hnd as [|? ? [->|(x & -> & Hx)] _]; subst; simpl.
    + exists q. split; [reflexivity | lra].
    + eexists. split; [reflexivity|]. nra.
  - apply IH. now inversion Hnd.
Qed.

Lemma py_sum_nonneg (l : list Q) (a : Q) :
  Forall (fun v => 0 <= v) l -> 0 <= a -> 0 <= fold_left Qplus l a.
Proof.
  intros H. revert a. induction H as [|v t Hv _ IH]; intros a Ha; simpl.
  - exact Ha.
  - apply IH. lra.
Qed.

Lemma normalize_weights_nonneg (w w' : weights) :
  Forall (fun kv : string * Q => 0 <= snd kv) w ->
  normalize_weights w = Return w' ->
  Forall (fun kv : string * Q => 0 <= snd kv) w'.
Proof.
  intros Hw. unfold normalize_weights.
  destruct (Qeq_bool (py_sum (map snd w)) 100); simpl.
  - now intros H; injection H as <-.
  - assert (Hsum : 0 <= py_sum (map snd w)).
    { apply py_sum_nonneg; [|lra]. apply Forall_map. exact Hw. }
    destruct (Qeq_bool (py_sum (map snd w)) 0) eqn:E.
    + destruct w as [|kv rest].
      * now intros H; injection H as <-.
      * rewrite rescale_weights_zero by (congruence || exact E).
        discriminate.
    + rewrite rescale_weights_total by exact E.
      intros H; injection H as <-. apply Forall_map.
      eapply Forall_impl; [|exact Hw]. intros [k v] Hv. simpl in *.
      assert (Hne : ~ py_sum (map snd w) == 0).
      { intros H0. apply Qeq_bool_iff in H0. congruence. }
      assert (Hpos : 0 < py_sum (map snd w)) by lra.
      apply Qmult_le_0_compat; [|lra].
      apply Qle_shift_div_l; [exact Hpos | lra].
Qed.

Lemma rint_range (y : Q) : 0 <= y <= 10 -> (0 <= rint y <= 10)%Z.
Proof.
  intros [H0 H10]. unfold rint.
  pose proof (Qfloor_le y) as Hlo.
  pose proof (Qfloor_resp_le _ _ H0) as Hn0.
  pose proof (Qfloor_resp_le _ _ H10) as Hn10.
  change (Qfloor 0) with 0%Z in Hn0. change (Qfloor 10) with 10%Z in Hn10.
  set (n := Qfloor y) in *.
  assert (Hup : 1 # 2 <= y - inject_Z n -> (n <= 9)%Z).
  { intros Hhalf.
    assert (Hn : inject_Z n <= 95 # 10) by lra.
    unfold Qle, inject_Z in Hn. simpl in Hn. lia. }
  destruct (Qcompare (y - inject_Z n) (1 # 2)) eqn:E.
  - apply Qeq_alt in E. assert (n <= 9)%Z by (apply Hup; lra).
    destruct (Z.even n); lia.
  - lia.
  - apply Qgt_alt in E. assert (n <= 9)%Z by (apply Hup; lra). lia.
Qed.

Lemma round1_band (q : Q) :
  0 <= q <= 1 -> exists b, In b bands /\ round1 q == b.
Proof.
  intros Hq. unfold round1.
  assert (Hk : (0 <= rint (q * 10) <= 10)%Z) by (apply rint_range; lra).
  set (k := rint (q * 10)) in *.
  assert (Hcases : (k = 0 \/ k = 1 \/ k = 2 \/ k = 3 \/ k = 4 \/ k = 5 \/
                    k = 6 \/ k = 7 \/ k = 8 \/ k = 9 \/ k = 10)%Z) by lia.
  unfold bands.
  repeat (destruct Hcases as [-> | Hcases];
          [eexists; split; [|reflexivity]; simpl; tauto|]).
  subst k. rewrite Hcases. exists 1.0. split; [simpl; tauto | reflexivity].
Qed.

Section Bands.

Variable reproject :
  Resampling -> grid -> shape -> Affine -> CRS -> Affine -> shape ->
  nat -> cell.
Variables (fld : folder) (w : weights) (tt : Affine) (ts : shape).

Hypothesis weights_nonneg : Forall (fun kv : string * Q => 0 <= snd kv) w.
Hypothesis ndvi_unweighted : dict_mem w "ndvi" = false.

Lemma run_factors_bounded (names : list string) :
  let st := run_factors reproject fld w tt ts names (initial_state ts) in
  0 <= total_weights_used st /\
  Forall (fun c => exists q, c = Val q /\ 0 <= q <= total_weights_used st)
         (suitability st).
Proof.
  cbv zeta.
  apply (run_factors_inv reproject fld w tt ts
           (fun st => 0 <= total_weights_used st /\
                      Forall (fun c => exists q, c = Val q /\
                                0 <= q <= total_weights_used st)
                             (suitability st))).
  - intros st name filename wv src _ Hw _ [HT Hs]. simpl.
    assert (Hwv : 0 <= wv).
    { apply dict_get_In in Hw. rewrite Forall_forall in weights_nonneg.
      exact (weights_nonneg _ Hw). }
    assert (Hk : 0 <= wv / 100)
      by (apply Qle_shift_div_l; [reflexivity | lra]).
    assert (Hname : (name =? "ndvi")%string = false).
    { destruct (name =? "ndvi")%string eqn:E; [|reflexivity].
      apply String.eqb_eq in E. subst name.
      unfold dict_mem in ndvi_unweighted. now rewrite Hw in ndvi_unweighted. }
    split; [lra|].
    apply map2_acc_bounded; auto.
    rewrite NormalizerFacts.normalize_pointwise. apply Forall_map.
    apply Forall_forall. intros c _. now apply normalize_cell_unit.
  - simpl. split; [lra|]. unfold np_zeros. apply Forall_forall.
    intros c Hc. apply repeat_spec in Hc. subst c.
    exists 0. split; [reflexivity | lra].
Qed.

Lemma penalized_unit :
  Forall (fun c => exists q, c = Val q /\ 0 <= q <= 1)
         (penalized reproject fld w tt ts).
Proof.
  rewrite penalized_guard, ndvi_unweighted.
  destruct (run_factors_bounded (map fst factor_files)) as [HT Hs].
  rewrite blended_fst. cbv zeta.
  set (st := run_factors reproject fld w tt ts (map fst factor_files)
               (initial_state ts)) in *.
  destruct (Qltb 0 (total_weights_used st)) eqn:E.
  - apply Qltb_true in E. unfold np_div. apply Forall_map.
    eapply Forall_impl; [|exact Hs]. intros c (q & -> & Hq). simpl.
    eexists; split; [reflexivity|]. split.
    + apply Qle_shift_div_l; [exact E | lra].
    + apply Qle_shift_div_r; [exact E | lra].
  - apply Qltb_false in E.
    eapply Forall_impl; [|exact Hs]. intros c (q & -> & Hq).
    exists q. split; [reflexivity | lra].
Qed.

End Bands.

(** The part of C5 that the code keeps: with non-negative weights and no
    weight entry for the vegetation index, every composite value after the
    rounding step and before the rescale is one of the eleven bands. *)
Theorem bands_without_ndvi
  (reproject : Resampling -> grid -> shape -> Affine -> CRS -> Affine ->
               shape -> nat -> cell)
  (fld : folder) (w : option weights) (g : grid) (m : meta) :
  Forall (fun kv : string * Q => 0 <= snd kv) (supplied w) ->
  dict_mem (supplied w) "ndvi" = false ->
  result (discretized_suitability reproject fld w) = Return (g, m) ->
  Forall (fun c => exists q b, c = Val q /\ In b bands /\ q == b) g.
Proof.
  intros Hw Hndvi. rewrite discretized_result.
  destruct (normalize_weights (supplied w)) as [w'|e] eqn:Hn; [|discriminate].
  destruct (reference_of fld factor_files) as [src|]; [|discriminate].
  intros H. injection H as <- _.
  unfold discretize, np_round1. apply Forall_map.
  eapply Forall_impl;
    [|apply (penalized_unit reproject fld w' (transform src)
               (raster_shape src))].
  - intros c (q & -> & Hq). simpl.
    destruct (round1_band q Hq) as (b & Hb & Hqb). now exists (round1 q), b.
  - now apply (normalize_weights_nonneg (supplied w)).
  - now rewrite (dict_mem_keys (supplied w) w' "ndvi"
                   (normalize_weights_keys _ _ Hn)).
Qed.

(** * Further properties of the analyzer *)

(** ** The normalization rules *)

Lemma normalize_cell_valid (name : string) (v : Q) :
  (name =? "ndvi")%string = false ->
  exists x, Normalizer.normalize_cell name (Val v) = Val x /\ 0 <= x <= 1.
Proof.
  intros Hn. unfold Normalizer.normalize_cell. rewrite Hn. simpl isnan.
  cbv iota. unfold Normalizer.rule_cell. rewrite Hn.
  repeat match goal with
         | |- context [(name =? ?s)%string] => destruct (name =? s)%string
         end;
    try unit_cases.
  apply clip_cell_bounds. lra.
Qed.

(** Every rule but the vegetation-index one returns a grid of the shape of
    its input, keeps a missing cell missing and scores a valid cell between
    0 and 1. *)
Theorem normalize_scores_in_unit_interval (g : grid) (name : string) :
  name <> "ndvi"%string ->
  Forall2 (fun raw n =>
             match raw with
             | NaN => n = NaN
             | Val _ => exists x, n = Val x /\ 0 <= x <= 1
             end)
          g (Normalizer.normalize_raster_values g name).
Proof.
  intros Hn. apply String.eqb_neq in Hn.
  rewrite NormalizerFacts.normalize_pointwise.
  induction g as [|c g IH]; simpl; constructor; [|exact IH].
  destruct c as [|v].
  - now apply NormalizerFacts.normalize_cell_missing.
  - now apply normalize_cell_valid.
Qed.

Lemma normalize_scores_in_unit_interval_witness :
  Forall2 (fun raw n =>
             match raw with
             | NaN => n = NaN
             | Val _ => exists x, n = Val x /\ 0 <= x <= 1
             end)
          [NaN; Val 7.2; Val (-3)]
          (Normalizer.normalize_raster_values [NaN; Val 7.2; Val (-3)]
             "moisture").
Proof.
  apply normalize_scores_in_unit_interval. discriminate.
Defined.

(* The cell [c] equals the key [k] of the table (hypothesis [E]): the
   entry of [k] holds by computation, the others are contradictory. *)
Ltac table_hit c E k :=
  apply cell_eq_eqv in E;
  repeat split; try reflexivity;
  let H := fresh "H" in
  intros H;
  try (exfalso; destruct c; simpl in *; [tauto|];
       rewrite E in H; discriminate H);
  exfalso; apply (H k); simpl; tauto.

(** The vegetation-index rule is an exact-match table on the 0-100 scale:
    the values 1 to 5 score 10, 40, 100, 80 and 20, and every other cell,
    a missing one included, scores the number 0. *)
Theorem ndvi_score_table (g : grid) :
  Forall2 (fun raw n =>
             (raw =c= Val 1 -> n = Val 10) /\
             (raw =c= Val 2 -> n = Val 40) /\
             (raw =c= Val 3 -> n = Val 100) /\
             (raw =c= Val 4 -> n = Val 80) /\
             (raw =c= Val 5 -> n = Val 20) /\
             ((forall k, In k [1; 2; 3; 4; 5] -> ~ raw =c= Val k) ->
              n = Val 0))
          g (Normalizer.normalize_raster_values g "ndvi").
Proof.
  rewrite NormalizerFacts.normalize_pointwise.
  induction g as [|c g IH]; simpl; constructor; [|exact IH].
  unfold Normalizer.normalize_cell, Normalizer.rule_cell. simpl.
  destruct (cell_eq 1 c) eqn:E1; [table_hit c E1 1|].
  destruct (cell_eq 2 c) eqn:E2; [table_hit c E2 2|].
  destruct (cell_eq 3 c) eqn:E3; [table_hit c E3 3|].
  destruct (cell_eq 4 c) eqn:E4; [table_hit c E4 4|].
  destruct (cell_eq 5 c) eqn:E5; [table_hit c E5 5|].
  repeat split; try reflexivity; intros H; apply cell_eq_eqv in H;
    congruence.
Qed.

Lemma Qle_bool_false (a b : Q) : Qle_bool a b = false -> b < a.
Proof.
  intros H. apply Qnot_le_lt. intros Hle. apply Qle_bool_iff in Hle.
  congruence.
Qed.

Ltac cmp_cases :=
  repeat match goal with
         | |- context [Qltb ?a ?b] =>
             let E := fresh "E" in
             destruct (Qltb a b) eqn:E;
             [apply Qltb_true in E | apply Qltb_false in E]
         | |- context [Qle_bool ?a ?b] =>
             let E := fresh "E" in
             destruct (Qle_bool a b) eqn:E;
             [apply Qle_bool_iff in E | apply Qle_bool_false in E]
         end.

Ltac rule_cells :=
  unfold Normalizer.normalize_cell, Normalizer.rule_cell;
  cbn [option_map String.eqb Ascii.eqb Bool.eqb isnan select_cell
       cell_lt cell_le cell_eq].

Ltac rule_at H :=
  rewrite NormalizerFacts.normalize_pointwise, nth_error_map, H; rule_cells.

Ltac rule_at2 Hi Hj :=
  rewrite NormalizerFacts.normalize_pointwise, !nth_error_map, Hi, Hj;
  rule_cells.

(** The pH rule is the optimum curve of the source: 0.1 below 4.5, 0.3 up
    to 5.5, 0.6 up to 6.0, 1.0 on [6.0, 7.5], 0.7 up to 8.5, 0.4 up to 9.0
    and 0.1 above. *)
Theorem ph_score_table (g : grid) (i : nat) (v : Q) :
  nth_error g i = Some (Val v) ->
  exists s,
    nth_error (Normalizer.normalize_raster_values g "ph") i = Some (Val s) /\
    (v < 4.5 -> s = 0.1) /\
    (4.5 <= v < 5.5 -> s = 0.3) /\
    (5.5 <= v < 6.0 -> s = 0.6) /\
    (6.0 <= v <= 7.5 -> s = 1.0) /\
    (7.5 < v <= 8.5 -> s = 0.7) /\
    (8.5 < v <= 9.0 -> s = 0.4) /\
    (9.0 < v -> s = 0.1).
Proof.
  intros H. rule_at H. cmp_cases;
    (eexists; split; [reflexivity|]);
    repeat split; intros; try reflexivity; exfalso; lra.
Qed.

Lemma ph_score_table_witness :
  exists s,
    nth_error (Normalizer.normalize_raster_values [Val 8.0; NaN] "ph") 0
    = Some (Val s) /\ s = 0.7.
Proof.
  destruct (ph_score_table [Val 8.0; NaN] 0 8.0 eq_refl)
    as (s & Hs & _ & _ & _ & _ & H & _).
  exists s. split; [exact Hs|]. apply H. split; reflexivity || discriminate.
Defined.

(** The two higher-is-better rules, organic carbon and sulphur, are
    monotone: a cell with a larger raw value never scores lower. *)
Theorem higher_is_better_monotone (name : string) (g : grid) (i j : nat)
  (u v : Q) :
  name = "soc"%string \/ name = "sulphur"%string ->
  nth_error g i = Some (Val u) ->
  nth_error g j = Some (Val v) ->
  u <= v ->
  exists su sv,
    nth_error (Normalizer.normalize_raster_values g name) i = Some (Val su) /\
    nth_error (Normalizer.normalize_raster_values g name) j = Some (Val sv) /\
    su <= sv.
Proof.
  intros [-> | ->] Hi Hj Huv; rule_at2 Hi Hj; cmp_cases;
    (eexists; eexists; split; [reflexivity|]; split; [reflexivity|]);
    lra.
Qed.

Lemma higher_is_better_monotone_witness :
  exists su sv,
    nth_error (Normalizer.normalize_raster_values [Val 1.2; Val 2.7] "soc") 0
    = Some (Val su) /\
    nth_error (Normalizer.normalize_raster_values [Val 1.2; Val 2.7] "soc") 1
    = Some (Val sv) /\
    su <= sv.
Proof.
  apply (higher_is_better_monotone "soc" [Val 1.2; Val 2.7] 0 1 1.2 2.7).
  - now left.
  - reflexivity.
  - reflexivity.
  - discriminate.
Defined.

(** The fertility rule is lower-is-better from 0 upwards: among
    non-negative raw values a larger one never scores higher, and only the
    value 0 scores 1. *)
Theorem fertility_lower_is_better (g : grid) (i j : nat) (u v : Q) :
  nth_error g i = Some (Val u) ->
  nth_error g j = Some (Val v) ->
  0 <= u <= v ->
  exists su sv,
    nth_error (Normalizer.normalize_raster_values g "fertility") i
    = Some (Val su) /\
    nth_error (Normalizer.normalize_raster_values g "fertility") j
    = Some (Val sv) /\
    sv <= su /\ (su == 1 <-> u == 0).
Proof.
  intros Hi Hj Huv; rule_at2 Hi Hj.
  destruct (Qeq_bool u 0) eqn:Eu;
    [apply Qeq_bool_iff in Eu | apply Qeq_bool_neq in Eu];
    (destruct (Qeq_bool v 0) eqn:Ev;
     [apply Qeq_bool_iff in Ev | apply Qeq_bool_neq in Ev]);
    cmp_cases;
    (eexists; eexists; split; [reflexivity|]; split; [reflexivity|]);
    (split; [lra|]); split; intros; try lra; try reflexivity;
    try discriminate; try contradiction.
Qed.

Lemma fertility_lower_is_better_witness :
  exists su sv,
    nth_error (Normalizer.normalize_raster_values [Val 3; Val 20] "fertility")
      0 = Some (Val su) /\
    nth_error (Normalizer.normalize_raster_values [Val 3; Val 20] "fertility")
      1 = Some (Val sv) /\
    sv <= su.
Proof.
  destruct (fertility_lower_is_better [Val 3; Val 20] 0 1 3 20 eq_refl
              eq_refl) as (su & sv & H1 & H2 & H3 & _).
  - split; discriminate.
  - now exists su, sv.
Defined.

(** A factor name outside the ten known ones gets the default rule: a
    missing cell stays missing and a value is clamped to [0, 1]. *)
Theorem unknown_factor_is_clamped (name : string) (g : grid) :
  dict_mem factor_files name = false ->
  Forall2 (fun raw n =>
             match raw with
             | NaN => n = NaN
             | Val v =>
                 exists x, n = Val x /\
                   (v < 0 -> x = 0) /\ (1 < v -> x = 1) /\
                   (0 <= v <= 1 -> x = v)
             end)
          g (Normalizer.normalize_raster_values g name).
Proof.
  intros Hname. rewrite NormalizerFacts.normalize_pointwise.
  induction g as [|c g IH]; simpl; constructor; [|exact IH].
  unfold Normalizer.normalize_cell, Normalizer.rule_cell.
  repeat match goal with
         | |- context [(name =? ?s)%string] =>
             let E := fresh "E" in
             destruct (name =? s)%string eqn:E;
             [apply String.eqb_eq in E; subst name; discriminate Hname|]
         end.
  destruct c as [|v]; [reflexivity|]. simpl.
  eexists. split; [reflexivity|].
  destruct (Qltb v 0) eqn:Hlo;
    [apply Qltb_true in Hlo | apply Qltb_false in Hlo].
  - replace (Qltb 1 0) with false by reflexivity.
    repeat split; intros; try reflexivity; exfalso; lra.
  - destruct (Qltb 1 v) eqn:Hhi;
      [apply Qltb_true in Hhi | apply Qltb_false in Hhi];
      repeat split; intros; try reflexivity; exfalso; lra.
Qed.

Lemma unknown_factor_is_clamped_witness :
  Forall2 (fun raw n =>
             match raw with
             | NaN => n = NaN
             | Val v =>
                 exists x, n = Val x /\
                   (v < 0 -> x = 0) /\ (1 < v -> x = 1) /\
                   (0 <= v <= 1 -> x = v)
             end)
          [NaN; Val (-2); Val 0.4; Val 9]
          (Normalizer.normalize_raster_values [NaN; Val (-2); Val 0.4; Val 9]
             "elevation").
Proof.
  apply unknown_factor_is_clamped. reflexivity.
Defined.

(** The three lookup rules (phosphorus, texture, moisture): a value equal
    to a key of the mapping scores the value stored under that key, and a
    value equal to no key scores 0.0. *)
Theorem lookup_rules_are_exact (name : string) (mapping : list (Q * Q))
  (g : grid) (i : nat) (v : Q) :
  In (name, mapping)
     [("phosphorus"%string, Normalizer.phosphorus_mapping);
      ("texture"%string, Normalizer.texture_mapping);
      ("moisture"%string, Normalizer.moisture_mapping)] ->
  nth_error g i = Some (Val v) ->
  exists s,
    nth_error (Normalizer.normalize_raster_values g name) i = Some (Val s) /\
    (forall k x, In (k, x) mapping -> v == k -> s = x) /\
    ((forall k x, In (k, x) mapping -> ~ v == k) -> s = 0.0).
Proof.
  intros Hin Hv. simpl in Hin.
  destruct Hin as [H|[H|[H|[]]]]; injection H as <- <-; rule_at Hv;
    unfold Normalizer.mapping_cases, Normalizer.phosphorus_mapping,
      Normalizer.texture_mapping, Normalizer.moisture_mapping;
    cbn [map rev app fst snd select_cell cell_eq];
    repeat match goal with
           | |- context [Qeq_bool v ?k] =>
               let E := fresh "E" in
               destruct (Qeq_bool v k) eqn:E;
               [apply Qeq_bool_iff in E | apply Qeq_bool_neq in E]
           end;
    (eexists; split; [reflexivity|]); (split; [intros k x Hk Hvk | intros Hnone]);
    try reflexivity;
    try (simpl in Hk;
         repeat (destruct Hk as [Hk|Hk];
                 [injection Hk as <- <-; try reflexivity; exfalso;
                  (contradiction || (rewrite Hvk in *; discriminate))|]);
         now destruct Hk);
    exfalso;
    match goal with
    | E : v == ?k |- _ =>
        eapply (Hnone k); [simpl; eauto 12 | exact E]
    end.
Qed.

Lemma lookup_rules_are_exact_witness :
  exists s,
    nth_error (Normalizer.normalize_raster_values [Val 6; Val 2] "moisture") 0
    = Some (Val s) /\ s = 0.7.
Proof.
  destruct (lookup_rules_are_exact "moisture" Normalizer.moisture_mapping
              [Val 6; Val 2] 0 6) as (s & Hs & Hkey & _).
  - simpl. tauto.
  - reflexivity.
  - exists s. split; [exact Hs|]. apply (Hkey 6 0.7).
    + simpl. tauto.
    + reflexivity.
Defined.

(** ** How a call ends *)

Lemma reference_of_none_iff (fld : folder) (files : list (string * string)) :
  reference_of fld files = None <->
  (forall name filename, In (name, filename) files -> fld filename = None).
Proof.
  induction files as [|[n f] rest IH]; simpl.
  - split; [intros _ ? ? [] | reflexivity].
  - destruct (fld f) as [src|] eqn:E.
    + split; [discriminate|]. intros H.
      rewrite (H n f) in E by now left. discriminate.
    + rewrite IH. split.
      * intros H name filename [Heq|Hin]; [now injection Heq as <- <-|].
        now apply (H name filename).
      * intros H name filename Hin. apply (H name filename). now right.
Qed.

Ltac no_return :=
  match goal with
  | H : exists _ _, _ = Return _ |- _ =>
      destruct H as (? & ? & ?); discriminate
  | |- (exists _ _, _ = Return _) -> _ =>
      let H := fresh in intros H; destruct H as (? & ? & ?); discriminate
  end.

(** A call ends in one of three ways, told apart by the weights and the
    folder alone: a division by zero when the mapping is non-empty with
    total 0; otherwise the configuration error when no factor file exists;
    otherwise a normal return.  No other exception comes out. *)
Theorem calculate_suitability_outcomes
  (reproject : Resampling -> grid -> shape -> Affine -> CRS -> Affine ->
               shape -> nat -> cell)
  (fld : folder) (w : option weights) :
  let zero_total :=
    supplied w <> [] /\ py_sum (map snd (supplied w)) == 0 in
  let no_file :=
    forall name filename,
      In (name, filename) factor_files -> fld filename = None in
  (result (calculate_suitability reproject fld w) = Raise ZeroDivisionError
   <-> zero_total) /\
  (result (calculate_suitability reproject fld w) = Raise FileNotFoundError
   <-> ~ zero_total /\ no_file) /\
  ((exists out m,
       result (calculate_suitability reproject fld w) = Return (out, m))
   <-> ~ zero_total /\ ~ no_file) /\
  result (calculate_suitability reproject fld w) <> Raise KeyError.
Proof.
  cbv zeta. rewrite calculate_result.
  assert (Hzero : supplied w <> [] /\ py_sum (map snd (supplied w)) == 0 ->
                  normalize_weights (supplied w) = Raise ZeroDivisionError).
  { intros [Hne H0]. unfold normalize_weights.
    assert (E : Qeq_bool (py_sum (map snd (supplied w))) 100 = false).
    { destruct (Qeq_bool (py_sum (map snd (supplied w))) 100) eqn:E;
        [|reflexivity].
      apply Qeq_bool_iff in E. rewrite H0 in E. discriminate. }
    rewrite E. simpl. apply rescale_weights_zero; [exact Hne|].
    now apply Qeq_bool_iff. }
  pose proof (normalize_weights_succeeds (supplied w)) as Hok.
  pose proof (reference_of_none_iff fld factor_files) as Href.
  assert (Hdec : (supplied w <> [] /\ py_sum (map snd (supplied w)) == 0) \/
                 (supplied w = [] \/ ~ py_sum (map snd (supplied w)) == 0)).
  { destruct (supplied w) as [|kv rest]; [right; now left|].
    destruct (Qeq_bool (py_sum (map snd (kv :: rest))) 0) eqn:E0.
    - left. split; [discriminate | now apply Qeq_bool_iff].
    - right. right. now apply Qeq_bool_neq. }
  destruct Hdec as [Hz | Hnz].
  - rewrite (Hzero Hz).
    repeat split; try congruence; try tauto;
      no_return.
  - assert (Hnot : ~ (supplied w <> [] /\
                      py_sum (map snd (supplied w)) == 0)) by tauto.
    destruct (Hok Hnz) as (w' & ->).
    destruct (reference_of fld factor_files) as [src|] eqn:Eref.
    + assert (Hfile : ~ (forall name filename,
                            In (name, filename) factor_files ->
                            fld filename = None)).
      { intros Hn. apply Href in Hn. discriminate. }
      repeat split; try congruence; try tauto; eauto.
    + assert (Hfile : forall name filename,
                 In (name, filename) factor_files -> fld filename = None)
        by now apply Href.
      repeat split; try congruence; try tauto;
        no_return.
Qed.

(** ** Loading one factor *)

(** Loading a factor: an unknown name is a key error; a known factor whose
    file is missing is skipped (no result, no error, nothing opened); a
    file that exists is opened once and gives the source metadata and a
    normalized grid of the target shape. *)
Theorem load_and_normalize_factor_cases
  (reproject : Resampling -> grid -> shape -> Affine -> CRS -> Affine ->
               shape -> nat -> cell)
  (fld : folder) (name : string) (tt : Affine) (ts : shape) :
  match dict_get factor_files name with
  | None =>
      load_and_normalize_factor reproject fld name (Some tt) (Some ts)
      = ([], Raise KeyError)
  | Some filename =>
      match fld filename with
      | None =>
          load_and_normalize_factor reproject fld name (Some tt) (Some ts)
          = ([], Return None)
      | Some src =>
          exists normalized,
            load_and_normalize_factor reproject fld name (Some tt) (Some ts)
            = ([EvOpen filename], Return (Some (normalized, src_meta src)))
            /\ length normalized = size_of ts
      end
  end.
Proof.
  unfold load_and_normalize_factor.
  destruct (dict_get factor_files name) as [filename|]; [|reflexivity].
  destruct (fld filename) as [src|]; [|reflexivity].
  eexists. split; [reflexivity|].
  now rewrite NormalizerFacts.normalize_length, resample_length.
Qed.

(** Without a target grid the raster is normalized on its own grid. *)
Theorem load_without_target_keeps_shape
  (reproject : Resampling -> grid -> shape -> Affine -> CRS -> Affine ->
               shape -> nat -> cell)
  (fld : folder) (name filename : string) (src : raster) :
  dict_get factor_files name = Some filename ->
  fld filename = Some src ->
  exists normalized,
    load_and_normalize_factor reproject fld name None None
    = ([EvOpen filename], Return (Some (normalized, src_meta src))) /\
    normalized
    = Normalizer.normalize_raster_values
        (mask_nodata (nodata src) (read_band src)) name /\
    length normalized = (height src * width src)%nat.
Proof.
  intros Hname Hsrc. unfold load_and_normalize_factor.
  rewrite Hname, Hsrc. eexists. split; [reflexivity|].
  split; [reflexivity|].
  now rewrite NormalizerFacts.normalize_length, mask_nodata_length,
    read_band_length.
Qed.

Lemma load_without_target_keeps_shape_witness :
  exists normalized,
    load_and_normalize_factor coregistered_reproject Scenario.folder_A "ph"
      None None
    = ([EvOpen "PH.tif"],
       Return (Some (normalized,
                     src_meta (Scenario.constant_raster 2 3 None (Val 7.0)))))
    /\ length normalized = 6%nat.
Proof.
  destruct (load_without_target_keeps_shape coregistered_reproject
              Scenario.folder_A "ph" "PH.tif"
              (Scenario.constant_raster 2 3 None (Val 7.0)) eq_refl eq_refl)
    as (n & H1 & _ & H3).
  exists n. split; [exact H1 | exact H3].
Defined.

(** ** The reference raster *)

Lemma reference_of_first (fld : folder) (files : list (string * string))
  (src : raster) :
  reference_of fld files = Some src ->
  exists pre name filename post,
    files = pre ++ (name, filename) :: post /\
    fld filename = Some src /\
    (forall n f, In (n, f) pre -> fld f = None).
Proof.
  induction files as [|[n f] rest IH]; simpl; [discriminate|].
  destruct (fld f) as [s|] eqn:E.
  - intros H; injection H as ->.
    exists [], n, f, rest. repeat split; auto. intros ? ? [].
  - intros H. destruct (IH H) as (pre & name & filename & post & -> & Hs & Hp).
    exists ((n, f) :: pre), name, filename, post. repeat split; auto.
    intros n' f' [Heq|Hin]; [now injection Heq as <- <-|].
    now apply (Hp n' f').
Qed.

Lemma find_reference_trace (fld : folder) (files : list (string * string))
  (pre post : list (string * string)) (name filename : string)
  (src : raster) :
  files = pre ++ (name, filename) :: post ->
  fld filename = Some src ->
  (forall n f, In (n, f) pre -> fld f = None) ->
  trace (find_reference fld files) = [EvOpen filename].
Proof.
  intros -> Hs Hp. induction pre as [|[n f] pre IH]; simpl.
  - now rewrite Hs.
  - rewrite (Hp n f) by now left. apply IH.
    intros n' f' Hin. apply (Hp n' f'). now right.
Qed.

(** ** The trace of a call *)

Lemma Forall_trace_bind {A B : Type} (P : event -> Prop) (m : io A)
  (f : A -> io B) :
  Forall P (trace m) -> (forall a, Forall P (trace (f a))) ->
  Forall P (trace (bind m f)).
Proof.
  intros Hm Hf. rewrite trace_bind. destruct (result m) as [a|e]; [|exact Hm].
  apply Forall_app. split; [exact Hm | apply Hf].
Qed.

Section TraceFacts.

Variable reproject :
  Resampling -> grid -> shape -> Affine -> CRS -> Affine -> shape ->
  nat -> cell.
Variable fld : folder.

Lemma calculate_trace (w : option weights) :
  trace (calculate_suitability reproject fld w) =
  match normalize_weights (supplied w) with
  | Raise _ => []
  | Return w' =>
      trace (find_reference fld factor_files) ++
      match reference_of fld factor_files with
      | None => []
      | Some src =>
          trace (composite reproject fld w' (transform src)
                   (raster_shape src))
      end
  end.
Proof.
  unfold calculate_suitability, discretized_suitability.
  destruct (normalize_weights (supplied w)) as [w'|e]; [|reflexivity].
  pose proof (find_reference_result fld factor_files) as Hr.
  remember (reference_of fld factor_files) as ref eqn:Eref.
  remember (find_reference fld factor_files) as FR eqn:EFR.
  destruct FR as [t r]. unfold result in Hr. simpl snd in Hr. subst r.
  destruct ref as [src|].
  - pose proof (composite_result reproject fld w' (transform src)
                  (raster_shape src)) as Hc.
    remember (composite reproject fld w' (transform src) (raster_shape src))
      as C eqn:EC.
    destruct C as [t' r']. unfold result in Hc. simpl snd in Hc. subst r'.
    unfold bind, lift, ret, trace, option_map. rewrite <- EC.
    simpl. now rewrite !app_nil_r.
  - unfold bind, lift, raise, trace, option_map. simpl.
    now rewrite ?app_nil_r.
Qed.

Lemma find_reference_opens (files : list (string * string)) :
  (forall n f, In (n, f) files -> In (n, f) factor_files) ->
  Forall (opens_existing fld) (trace (find_reference fld files)).
Proof.
  induction files as [|[n f] rest IH]; intros Hsub; simpl; [constructor|].
  destruct (fld f) as [src|] eqn:E.
  - simpl. constructor; [|constructor].
    exists n, f, src. repeat split; auto. apply Hsub. now left.
  - apply IH. intros n' f' Hin. apply Hsub. now right.
Qed.

Lemma load_opens (name : string) (tt : option Affine) (ts : option shape) :
  Forall (opens_existing fld)
         (trace (load_and_normalize_factor reproject fld name tt ts)).
Proof.
  unfold load_and_normalize_factor.
  destruct (dict_get factor_files name) as [filename|] eqn:En;
    [|constructor].
  destruct (fld filename) as [src|] eqn:Es; [|constructor].
  simpl. constructor; [|constructor].
  exists name, filename, src. repeat split; auto.
  now apply dict_get_In.
Qed.

Lemma process_factors_opens (w : weights) (tt : Affine) (ts : shape)
  (names : list string) (st : blend_state) :
  Forall (opens_existing fld)
         (trace (process_factors reproject fld w tt ts names st)).
Proof.
  revert st. induction names as [|name rest IH]; intros st; simpl;
    [constructor|].
  apply Forall_trace_bind; [|intros a; apply IH].
  unfold process_factor. destruct (dict_mem w name); [|constructor].
  apply Forall_trace_bind; [apply load_opens|].
  intros [[nd meta']|]; [|constructor].
  destruct (dict_get w name); constructor.
Qed.

Lemma composite_opens (w : weights) (tt : Affine) (ts : shape) :
  Forall (opens_existing fld) (trace (composite reproject fld w tt ts)).
Proof.
  unfold composite. apply Forall_trace_bind.
  - unfold aggregate. apply Forall_trace_bind;
      [apply process_factors_opens | intros a; constructor].
  - intros [s nf]. unfold ndvi_penalties. simpl.
    destruct (dict_mem nf "ndvi"); [|constructor].
    destruct (fld "NDVI.tif"%string) as [src|] eqn:E; [|constructor].
    simpl. constructor; [|constructor].
    exists "ndvi"%string, "NDVI.tif"%string, src. repeat split; auto.
    simpl. tauto.
Qed.

End TraceFacts.

(** A call only reads: its trace holds no write, and every file it opens
    is a factor file that exists in the folder - a missing file is never
    opened. *)
Theorem calculate_suitability_only_opens_existing
  (reproject : Resampling -> grid -> shape -> Affine -> CRS -> Affine ->
               shape -> nat -> cell)
  (fld : folder) (w : option weights) :
  Forall (fun ev =>
            exists name filename src,
              ev = EvOpen filename /\ In (name, filename) factor_files /\
              fld filename = Some src)
         (trace (calculate_suitability reproject fld w)).
Proof.
  rewrite calculate_trace.
  destruct (normalize_weights (supplied w)) as [w'|e]; [|constructor].
  apply Forall_app. split.
  - apply (find_reference_opens fld factor_files). auto.
  - destruct (reference_of fld factor_files) as [src|]; [|constructor].
    apply (composite_opens reproject fld).
Qed.

(** The reference grid is the first factor file, in the fixed order of
    the factor table, that exists: the metadata returned is the metadata of
    that raster, and it is the first file the call opens. *)
Theorem reference_is_first_existing_file
  (reproject : Resampling -> grid -> shape -> Affine -> CRS -> Affine ->
               shape -> nat -> cell)
  (fld : folder) (w : option weights) (out : grid) (m : meta) :
  result (calculate_suitability reproject fld w) = Return (out, m) ->
  exists pre name filename post src,
    factor_files = pre ++ (name, filename) :: post /\
    fld filename = Some src /\
    (forall n f, In (n, f) pre -> fld f = None) /\
    m = src_meta src /\
    exists rest,
      trace (calculate_suitability reproject fld w) = EvOpen filename :: rest.
Proof.
  intros H. apply calculate_returns in H.
  destruct H as (w' & src & Hn & Href & -> & _).
  destruct (reference_of_first _ _ _ Href)
    as (pre & name & filename & post & Hfiles & Hs & Hp).
  exists pre, name, filename, post, src. repeat split; auto.
  rewrite calculate_trace, Hn, Href.
  rewrite (find_reference_trace fld factor_files pre post name filename src
             Hfiles Hs Hp).
  simpl. eexists. reflexivity.
Qed.

Lemma reference_is_first_existing_file_witness :
  exists out m,
    result (calculate_suitability coregistered_reproject Scenario.folder_C
              (Some Scenario.weights_C_ndvi)) = Return (out, m) /\
    m = src_meta (Scenario.constant_raster 2 2 None (Val 0)).
Proof.
  destruct (result (calculate_suitability coregistered_reproject
                      Scenario.folder_C (Some Scenario.weights_C_ndvi)))
    as [[out m]|e] eqn:E.
  - exists out, m. split; [reflexivity|].
    destruct (reference_is_first_existing_file _ _ _ _ _ E)
      as (pre & name & filename & post & src & Hf & Hs & Hp & Hm & _).
    vm_compute in E. now injection E as _ <-.
  - vm_compute in E. discriminate.
Defined.

(** ** Saving and the command line *)

(** Saving needs an output path with a directory part: for a bare file
    name the creation of the directory raises and nothing is written.
    With a directory part the save creates the directory and writes one
    raster in which no cell is NaN; reading it back is a round trip: as long
    as no valid cell holds the no-data value -9999 itself, masking the
    written band with the no-data value of the written metadata gives the
    grid back, missing cells included. *)
Theorem save_then_mask_round_trip (data : grid) (m : meta) (path : string) :
  Forall (fun c => ~ c =c= Val (-9999)) data ->
  (dirname path = EmptyString ->
   save_suitability_raster data m path = ([], Raise FileNotFoundError)) /\
  (dirname path <> EmptyString ->
   exists written,
     save_suitability_raster data m path
     = ([EvMakedirs (dirname path); EvWrite path (output_meta m) written],
        Return path) /\
     Forall (fun c => c <> NaN) written /\
     mask_nodata (m_nodata (output_meta m)) written = data).
Proof.
  intros H. unfold save_suitability_raster. split.
  - intros ->. reflexivity.
  - intros Hdir. destruct (dirname path) as [|c0 rest]; [congruence|].
    eexists. split; [reflexivity|].
    unfold fill_nodata. simpl m_nodata. cbv iota.
    unfold mask_nodata, set_nan_where. split.
    + apply Forall_map. apply Forall_forall. intros [|q] _; discriminate.
    + induction H as [|c t Hc _ IH]; simpl; [reflexivity|].
      rewrite IH. f_equal. destruct c as [|q]; simpl; [reflexivity|].
      simpl in Hc. destruct (Qeq_bool q (-9999)) eqn:E; [|reflexivity].
      apply Qeq_bool_iff in E. contradiction.
Qed.

Lemma save_then_mask_round_trip_witness :
  save_suitability_raster [Val 40; NaN; Val 100]
    (src_meta (Scenario.constant_raster 1 3 None (Val 7.0))) "out.tif"
  = ([], Raise FileNotFoundError) /\
  exists written,
    save_suitability_raster [Val 40; NaN; Val 100]
      (src_meta (Scenario.constant_raster 1 3 None (Val 7.0)))
      "data/suitability.tif"
    = ([EvMakedirs "data";
        EvWrite "data/suitability.tif"
          (output_meta
             (src_meta (Scenario.constant_raster 1 3 None (Val 7.0))))
          written], Return "data/suitability.tif"%string) /\
    mask_nodata (Some (Val (-9999))) written = [Val 40; NaN; Val 100].
Proof.
  split.
  - apply (save_then_mask_round_trip [Val 40; NaN; Val 100]
             (src_meta (Scenario.constant_raster 1 3 None (Val 7.0)))
             "out.tif").
    + repeat constructor; simpl; try tauto; discriminate.
    + reflexivity.
  - destruct (save_then_mask_round_trip [Val 40; NaN; Val 100]
                (src_meta (Scenario.constant_raster 1 3 None (Val 7.0)))
                "data/suitability.tif") as (_ & Hw).
    + repeat constructor; simpl; try tauto; discriminate.
    + destruct Hw as (written & H1 & _ & H2); [discriminate|].
      exists written. split; [exact H1 | exact H2].
Defined.

(** [main] exits with 0 exactly when the computation returns and the
    output path has a directory part; it then creates that directory and
    writes one raster, last, at the output path, holding the grid as
    computed, a missing cell replaced by the no-data value.  When the
    computation raises, or the output path is a bare file name, it exits
    with 1 and writes nothing. *)
Theorem main_writes_on_success_only
  (reproject : Resampling -> grid -> shape -> Affine -> CRS -> Affine ->
               shape -> nat -> cell)
  (fld : folder) (w : option weights) (output : string) :
  main reproject fld w output =
  match result (calculate_suitability reproject fld w) with
  | Return (out, m) =>
      match dirname output with
      | EmptyString =>
          (trace (calculate_suitability reproject fld w), Return 1%Z)
      | String _ _ as dir =>
          (trace (calculate_suitability reproject fld w)
             ++ [EvMakedirs dir;
                 EvWrite output (output_meta m)
                   (fill_nodata (output_meta m) out)],
           Return 0%Z)
      end
  | Raise _ => (trace (calculate_suitability reproject fld w), Return 1%Z)
  end.
Proof.
  unfold main.
  remember (calculate_suitability reproject fld w) as C eqn:EC.
  destruct C as [t [[out m]|e]]; unfold result, trace in *; simpl fst;
    simpl snd.
  - unfold bind at 1. cbv beta iota. simpl fst. simpl snd.
    rewrite (save_outcome out m output).
    destruct (dirname output); simpl; now rewrite ?app_nil_r.
  - simpl. now rewrite ?app_nil_r.
Qed.

Lemma bands_without_ndvi_witness :
  exists g m,
    result (discretized_suitability coregistered_reproject Scenario.folder_A
              (Some Scenario.weights_A)) = Return (g, m) /\
    Forall (fun c => exists q b, c = Val q /\ In b bands /\ q == b) g.
Proof.
  destruct (result (discretized_suitability coregistered_reproject
                      Scenario.folder_A (Some Scenario.weights_A)))
    as [[g m]|e] eqn:E.
  - exists g, m. split; [reflexivity|].
    apply (bands_without_ndvi coregistered_reproject Scenario.folder_A
             (Some Scenario.weights_A) g m); [| reflexivity | exact E].
    repeat constructor. simpl. discriminate.
  - vm_compute in E. discriminate.
Defined.

(** ** Blends with few factors *)

Lemma blended_snd
  (reproject : Resampling -> grid -> shape -> Affine -> CRS -> Affine ->
               shape -> nat -> cell)
  (fld : folder) (w : weights) (tt : Affine) (ts : shape) :
  snd (blended reproject fld w tt ts) =
  normalized_factors
    (run_factors reproject fld w tt ts (map fst factor_files)
       (initial_state ts)).
Proof. unfold blended. reflexivity. Qed.

Lemma contributes_keys (fld : folder) (w w' : weights) (name : string) :
  map fst w' = map fst w ->
  contributes fld w' name = contributes fld w name.
Proof.
  intros Hk. unfold contributes.
  destruct (dict_get factor_files name) as [filename|]; [|reflexivity].
  pose proof (dict_mem_keys w w' name Hk) as Hm. unfold dict_mem in Hm.
  destruct (dict_get w' name), (dict_get w name);
    try discriminate; reflexivity.
Qed.

(** When no weighted factor has its file in the folder (an empty weight
    mapping included), the call still returns, on the reference grid, and
    every cell reads 0. *)
Theorem no_weighted_factor_gives_zeros
  (reproject : Resampling -> grid -> shape -> Affine -> CRS -> Affine ->
               shape -> nat -> cell)
  (fld : folder) (w : option weights) (out : grid) (m : meta) :
  result (calculate_suitability reproject fld w) = Return (out, m) ->
  (forall name filename,
      In (name, filename) factor_files ->
      dict_mem (supplied w) name = true -> fld filename = None) ->
  length out = (m_height m * m_width m)%nat /\
  Forall (fun c => c =c= Val 0) out.
Proof.
  intros H Hnone. apply calculate_returns in H.
  destruct H as (w' & src & Hn & _ & -> & ->).
  set (tt := transform src). set (ts := raster_shape src).
  pose proof (normalize_weights_keys _ _ Hn) as Hk.
  assert (Hskip : run_factors reproject fld w' tt ts (map fst factor_files)
                    (initial_state ts) = initial_state ts).
  { apply run_factors_skip. apply Forall_forall. intros name Hin.
    rewrite (contributes_keys fld (supplied w) w' name Hk).
    unfold contributes.
    destruct (dict_get factor_files name) as [filename|] eqn:Ef;
      [|reflexivity].
    destruct (dict_get (supplied w) name) as [wv|] eqn:Ew; [|reflexivity].
    rewrite (Hnone name filename); [reflexivity | now apply dict_get_In |].
    unfold dict_mem. now rewrite Ew. }
  assert (Hpen : penalized reproject fld w' tt ts = np_zeros ts).
  { unfold penalized. rewrite blended_fst. cbv zeta.
    rewrite blended_snd, Hskip. reflexivity. }
  rewrite Hpen. split.
  - rewrite rescale_length. unfold np_zeros. now rewrite repeat_length.
  - unfold rescale, discretize, np_clip, np_mul, np_round1, np_zeros.
    do 3 apply Forall_map. apply Forall_forall. intros c Hc.
    apply repeat_spec in Hc. subst c. reflexivity.
Qed.

Lemma no_weighted_factor_gives_zeros_witness :
  exists out m,
    result (calculate_suitability coregistered_reproject Scenario.folder_A
              (Some [])) = Return (out, m) /\
    length out = 6%nat /\ Forall (fun c => c =c= Val 0) out.
Proof.
  destruct (result (calculate_suitability coregistered_reproject
                      Scenario.folder_A (Some [])))
    as [[out m]|e] eqn:E.
  - exists out, m. split; [reflexivity|].
    destruct (no_weighted_factor_gives_zeros coregistered_reproject
                Scenario.folder_A (Some []) out m E) as [Hlen Hz].
    + intros name filename _ Hmem. discriminate Hmem.
    + split; [|exact Hz]. vm_compute in E. injection E as _ <-. exact Hlen.
  - vm_compute in E. discriminate.
Defined.

(** * Properties of the web API *)

Module ApiServerFacts.
Import ApiServer.

(** ** The layer name *)

Lemma allowed_underscore : allowed "_"%char = true.
Proof. reflexivity. Qed.

Lemma re_sub_unsafe_allowed (s : string) :
  string_forall allowed (re_sub_unsafe s) = true.
Proof.
  induction s as [|c rest IH]; simpl; [reflexivity|].
  rewrite IH, andb_true_r. destruct (allowed c) eqn:E; [exact E|].
  apply allowed_underscore.
Qed.

Lemma lstrip_forall (p : ascii -> bool) (s : string) :
  string_forall p s = true -> string_forall p (lstrip s) = true.
Proof.
  induction s as [|c rest IH]; simpl; [reflexivity|].
  intros H. apply andb_true_iff in H. destruct H as [Hc Hr].
  destruct (c =? "_")%char; [now apply IH|]. simpl. now rewrite Hc, Hr.
Qed.

Lemma rstrip_forall (p : ascii -> bool) (s : string) :
  string_forall p s = true -> string_forall p (rstrip s) = true.
Proof.
  induction s as [|c rest IH]; simpl; [reflexivity|].
  intros H. apply andb_true_iff in H. destruct H as [Hc Hr].
  specialize (IH Hr). destruct (rstrip rest) as [|c' kept].
  - destruct (c =? "_")%char; simpl; [reflexivity | now rewrite Hc].
  - simpl in *. now rewrite Hc, IH.
Qed.

Lemma slice_to_forall (p : ascii -> bool) (n : nat) (s : string) :
  string_forall p s = true -> string_forall p (slice_to n s) = true.
Proof.
  revert s. induction n as [|n IH]; intros [|c rest]; simpl; auto.
  intros H. apply andb_true_iff in H. destruct H as [Hc Hr].
  now rewrite Hc, IH.
Qed.

Lemma slice_to_length (n : nat) (s : string) :
  (String.length (slice_to n s) <= n)%nat.
Proof.
  revert s. induction n as [|n IH]; intros [|c rest]; simpl; try lia.
  specialize (IH rest). lia.
Qed.

Lemma lstrip_head (s : string) : head_is "_" (lstrip s) = false.
Proof.
  induction s as [|c rest IH]; simpl; [reflexivity|].
  destruct (c =? "_")%char eqn:E; [exact IH | exact E].
Qed.

Lemma rstrip_head (s : string) :
  head_is "_" s = false -> head_is "_" (rstrip s) = false.
Proof.
  destruct s as [|c rest]; simpl; [reflexivity|]. intros Hc.
  destruct (rstrip rest); [now rewrite Hc | exact Hc].
Qed.

Lemma slice_to_head (n : nat) (s : string) :
  head_is "_" s = false -> head_is "_" (slice_to n s) = false.
Proof. destruct n, s; simpl; auto. Qed.

Lemma safe_name_allowed (custom_name : string) :
  string_forall allowed (safe_name custom_name) = true.
Proof.
  unfold safe_name, strip.
  apply slice_to_forall, rstrip_forall, lstrip_forall, re_sub_unsafe_allowed.
Qed.

(** The layer name built from any requested name holds only letters,
    digits, underscores and hyphens (so no path separator and no dot), is
    at most 50 characters long and does not start with an underscore. *)
Theorem safe_name_is_safe (custom_name : string) :
  string_forall allowed (safe_name custom_name) = true /\
  (String.length (safe_name custom_name) <= 50)%nat /\
  head_is "_" (safe_name custom_name) = false.
Proof.
  split; [apply safe_name_allowed|]. unfold safe_name, strip. split.
  - apply slice_to_length.
  - apply slice_to_head, rstrip_head, lstrip_head.
Qed.

Lemma re_sub_unsafe_id (s : string) :
  string_forall allowed s = true -> re_sub_unsafe s = s.
Proof.
  induction s as [|c rest IH]; simpl; [reflexivity|].
  intros H. apply andb_true_iff in H. destruct H as [Hc Hr].
  now rewrite Hc, IH.
Qed.

Lemma rstrip_id (s : string) : last_is "_" s = false -> rstrip s = s.
Proof.
  induction s as [|c rest IH]; simpl; [reflexivity|].
  destruct rest as [|c' rest'].
  - simpl. intros ->. reflexivity.
  - intros H. rewrite (IH H). reflexivity.
Qed.

Lemma slice_to_id (n : nat) (s : string) :
  (String.length s <= n)%nat -> slice_to n s = s.
Proof.
  revert s. induction n as [|n IH]; intros [|c rest]; simpl; try lia; auto.
  intros H. rewrite IH; [reflexivity | lia].
Qed.

(** A requested name that is already a layer name - allowed characters
    only, no underscore at either end, at most 50 characters - is kept as
    it is. *)
Theorem safe_name_keeps_safe_names (s : string) :
  string_forall allowed s = true ->
  head_is "_" s = false ->
  last_is "_" s = false ->
  (String.length s <= 50)%nat ->
  safe_name s = s.
Proof.
  intros Hall Hhead Hend Hlen. unfold safe_name, strip.
  rewrite (re_sub_unsafe_id s Hall).
  assert (Hl : lstrip s = s).
  { destruct s as [|c rest]; [reflexivity|]. simpl in *. now rewrite Hhead. }
  rewrite Hl, (rstrip_id s Hend). now apply slice_to_id.
Qed.

Lemma safe_name_keeps_safe_names_witness :
  safe_name "Dry_season-2024" = "Dry_season-2024"%string.
Proof.
  apply safe_name_keeps_safe_names.
  - reflexivity.
  - reflexivity.
  - reflexivity.
  - simpl. lia.
Defined.

(** ** The file list *)

Lemma existsb_eqb_In (x : string) (l : list string) :
  existsb (String.eqb x) l = true <-> In x l.
Proof.
  rewrite existsb_exists. split.
  - intros (y & Hy & E). apply String.eqb_eq in E. now subst.
  - intros H. exists x. split; [exact H | apply String.eqb_refl].
Qed.

Lemma update_files_json_lists (files_json : option (list string))
  (new_filename : string) :
  exists after,
    update_files_json files_json new_filename = Some after /\
    In new_filename after.
Proof.
  unfold update_files_json.
  destruct (existsb (String.eqb new_filename)
              match files_json with Some l => l | None => [] end) eqn:E.
  - apply existsb_eqb_In in E.
    destruct files_json as [l|]; [|destruct E]. now exists l.
  - eexists. split; [reflexivity|]. apply in_or_app. right. now left.
Qed.

(** Registering a file name in the list always leaves a list behind, in
    which the name is listed and the entries that were there come first,
    in their order; a name already listed changes nothing (nothing is
    written), a new one is appended once; and registering twice is the
    same as registering once. *)
Theorem update_files_json_registers (files_json : option (list string))
  (new_filename : string) :
  let before := match files_json with Some l => l | None => [] end in
  exists after,
    update_files_json files_json new_filename = Some after /\
    In new_filename after /\
    (In new_filename before ->
     update_files_json files_json new_filename = files_json) /\
    (~ In new_filename before -> after = before ++ [new_filename]) /\
    update_files_json (Some after) new_filename = Some after.
Proof.
  cbv zeta. unfold update_files_json.
  destruct (existsb (String.eqb new_filename)
              match files_json with Some l => l | None => [] end) eqn:E.
  - pose proof (proj1 (existsb_eqb_In _ _) E) as Hin.
    destruct files_json as [l|]; [|destruct Hin].
    exists l. rewrite E. repeat split; auto. intros H. contradiction.
  - assert (Hnot : ~ In new_filename
                     match files_json with Some l => l | None => [] end).
    { intros H. apply existsb_eqb_In in H. congruence. }
    eexists. split; [reflexivity|].
    assert (Hin : In new_filename
                    (match files_json with Some l => l | None => [] end
                     ++ [new_filename]))
      by (apply in_or_app; right; now left).
    repeat split; auto.
    + intros H. contradiction.
    + now rewrite (proj2 (existsb_eqb_In _ _) Hin).
Qed.

Lemma update_files_json_keeps_distinct (files_json : option (list string))
  (new_filename : string) (after : list string) :
  NoDup match files_json with Some l => l | None => [] end ->
  update_files_json files_json new_filename = Some after ->
  NoDup after.
Proof.
  unfold update_files_json.
  destruct (existsb (String.eqb new_filename)
              match files_json with Some l => l | None => [] end) eqn:E.
  - intros Hnd H. subst files_json. exact Hnd.
  - intros Hnd H. injection H as <-.
    apply NoDup_app; repeat split; auto.
    + repeat constructor. intros [].
    + intros x Hx [<-|[]]. apply existsb_eqb_In in Hx. congruence.
Qed.

(** ** The request *)

Lemma first_missing_none (expected : list string) (w : weights) :
  first_missing expected w = None <->
  Forall (fun f => dict_mem w f = true) expected.
Proof.
  induction expected as [|f rest IH]; simpl.
  - split; [constructor | reflexivity].
  - destruct (dict_mem w f) eqn:E.
    + rewrite IH. split; [now constructor | now inversion 1].
    + split; [discriminate|]. inversion 1. congruence.
Qed.

Lemma first_missing_some (expected : list string) (w : weights)
  (f : string) :
  first_missing expected w = Some f ->
  exists pre post,
    expected = pre ++ f :: post /\
    Forall (fun g => dict_mem w g = true) pre /\
    dict_mem w f = false.
Proof.
  induction expected as [|g rest IH]; simpl; [discriminate|].
  destruct (dict_mem w g) eqn:E.
  - intros H. destruct (IH H) as (pre & post & -> & Hpre & Hf).
    exists (g :: pre), post. repeat split; auto.
  - intros H; injection H as <-. exists [], rest. repeat split; auto.
Qed.

(** A request is accepted exactly when it carries weights with an entry
    for each of the ten factors; the job then runs on those weights under
    the sanitized name.  Any other request is answered by an error that
    names the first missing factor (or the missing weights), and starts no
    job. *)
Theorem analyze_suitability_validates
  (reproject : Resampling -> grid -> shape -> Affine -> CRS -> Affine ->
               shape -> nat -> cell)
  (data_path : string -> string) (now : Z) (fld : folder)
  (files_json : option (list string)) (data : option request_body) :
  match analyze_suitability reproject data_path now fld files_json data with
  | (Started id layer custom, job) =>
      exists d w,
        data = Some d /\ req_weights d = Some w /\
        Forall (fun f => dict_mem w f = true) expected_factors /\
        id = now /\
        custom = match req_name d with
                 | Some n => n
                 | None => "Custom_Analysis"%string
                 end /\
        layer = safe_name custom /\
        job = Some (run_analysis reproject data_path fld files_json w layer
                      custom)
  | (BadRequest message, job) =>
      job = None /\
      ((message = "Missing 'weights' in request body"%string /\
        (data = None \/ exists d, data = Some d /\ req_weights d = None)) \/
       exists d w pre f post,
         data = Some d /\ req_weights d = Some w /\
         expected_factors = pre ++ f :: post /\
         Forall (fun g => dict_mem w g = true) pre /\
         dict_mem w f = false /\
         message = ("Missing weight for factor: " ++ f)%string)
  end.
Proof.
  unfold analyze_suitability.
  destruct data as [d|]; [|split; [reflexivity | left; auto]].
  destruct (req_weights d) as [w|] eqn:Ew;
    [|split; [reflexivity | left; split; [reflexivity|]; right; eauto]].
  destruct (first_missing expected_factors w) as [f|] eqn:Ef.
  - split; [reflexivity|]. right.
    destruct (first_missing_some _ _ _ Ef) as (pre & post & Hexp & Hpre & Hf).
    exists d, w, pre, f, post. repeat split; auto.
  - exists d, w. repeat split; auto. now apply first_missing_none.
Qed.

(** Through the endpoint the penalty pass cannot be switched off: an
    accepted request has a weight entry for the vegetation index, so
    whenever its file exists the result is the penalized blend. *)
Theorem accepted_requests_are_penalized
  (reproject : Resampling -> grid -> shape -> Affine -> CRS -> Affine ->
               shape -> nat -> cell)
  (data_path : string -> string) (now : Z) (fld : folder)
  (files_json : option (list string)) (d : request_body) (w : weights)
  (id : Z) (layer custom : string) (job : option job_result)
  (src : raster) (out : grid) (m : meta) :
  req_weights d = Some w ->
  analyze_suitability reproject data_path now fld files_json (Some d)
  = (Started id layer custom, job) ->
  fld "NDVI.tif"%string = Some src ->
  result (calculate_suitability reproject fld (Some w)) = Return (out, m) ->
  exists w',
    normalize_weights w = Return w' /\
    out = rescale
            (discretize
               (apply_penalties
                  (load_ndvi_original reproject src (m_transform m)
                     (m_height m, m_width m))
                  (fst (blended reproject fld w' (m_transform m)
                          (m_height m, m_width m))))).
Proof.
  intros Hw Hreq Hsrc Hres.
  assert (Hndvi : dict_mem w "ndvi" = true).
  { unfold analyze_suitability in Hreq. rewrite Hw in Hreq.
    destruct (first_missing expected_factors w) eqn:Ef; [discriminate|].
    apply first_missing_none in Ef. rewrite Forall_forall in Ef.
    apply Ef. simpl. tauto. }
  apply calculate_returns in Hres.
  destruct Hres as (w' & ref & Hn & _ & -> & ->).
  exists w'. split; [exact Hn|]. simpl.
  change (height ref, width ref) with (raster_shape ref).
  rewrite penalized_guard.
  rewrite (dict_mem_keys w w' "ndvi" (normalize_weights_keys _ _ Hn)).
  now rewrite Hndvi, Hsrc.
Qed.

Lemma accepted_requests_are_penalized_witness :
  exists out m,
    result (calculate_suitability coregistered_reproject Scenario.folder_C
              (Some default_weights)) = Return (out, m) /\
    Forall (fun c => c =c= Val 10) out.
Proof.
  destruct (result (calculate_suitability coregistered_reproject
                      Scenario.folder_C (Some default_weights)))
    as [[out m]|e] eqn:E.
  - exists out, m. split; [reflexivity|].
    destruct (accepted_requests_are_penalized coregistered_reproject
                (fun n => n) 0%Z Scenario.folder_C None
                (mkRequest (Some default_weights) None) default_weights
                0%Z (safe_name "Custom_Analysis") "Custom_Analysis"
                (Some (run_analysis coregistered_reproject (fun n => n)
                         Scenario.folder_C None default_weights
                         (safe_name "Custom_Analysis") "Custom_Analysis"))
                (Scenario.constant_raster 2 2 None (Val 1)) out m
                eq_refl eq_refl eq_refl E) as (w' & _ & Hout).
    vm_compute in E. injection E as <- _. repeat constructor.
  - vm_compute in E. discriminate.
Defined.

(** ** The statistics *)

Lemma valid_values_In (g : grid) (q : Q) :
  In q (valid_values g) <-> In (Val q) g.
Proof.
  unfold valid_values. rewrite in_flat_map. split.
  - intros ([|v] & Hc & Hq); simpl in Hq; [destruct Hq|].
    destruct Hq as [<-|[]]. exact Hc.
  - intros H. exists (Val q). split; [exact H | now left].
Qed.

Lemma fold_min_spec (rest : list Q) (q : Q) :
  In (fold_left Qmin2 rest q) (q :: rest) /\
  (forall x, In x (q :: rest) -> fold_left Qmin2 rest q <= x).
Proof.
  revert q. induction rest as [|y rest IH]; intros q; simpl.
  - split; [now left|]. intros x [<-|[]]. apply Qle_refl.
  - destruct (IH (Qmin2 q y)) as [Hin Hle]. split.
    + destruct Hin as [H|H]; [|now right; right].
      rewrite <- H. unfold Qmin2. destruct (Qle_bool q y); tauto.
    + assert (Hq : Qmin2 q y <= q /\ Qmin2 q y <= y).
      { unfold Qmin2. destruct (Qle_bool q y) eqn:E.
        - apply Qle_bool_iff in E. split; [apply Qle_refl | exact E].
        - apply Qle_bool_false in E. split; [lra | apply Qle_refl]. }
      pose proof (Hle _ (or_introl eq_refl)) as H0.
      intros x [<-|[<-|Hx]]; [lra | lra |]. apply Hle. now right.
Qed.

Lemma fold_max_spec (rest : list Q) (q : Q) :
  In (fold_left Qmax2 rest q) (q :: rest) /\
  (forall x, In x (q :: rest) -> x <= fold_left Qmax2 rest q).
Proof.
  revert q. induction rest as [|y rest IH]; intros q; simpl.
  - split; [now left|]. intros x [<-|[]]. apply Qle_refl.
  - destruct (IH (Qmax2 q y)) as [Hin Hle]. split.
    + destruct Hin as [H|H]; [|now right; right].
      rewrite <- H. unfold Qmax2. destruct (Qle_bool q y); tauto.
    + assert (Hq : q <= Qmax2 q y /\ y <= Qmax2 q y).
      { unfold Qmax2. destruct (Qle_bool q y) eqn:E.
        - apply Qle_bool_iff in E. split; [exact E | apply Qle_refl].
        - apply Qle_bool_false in E. split; [apply Qle_refl | lra]. }
      pose proof (Hle _ (or_introl eq_refl)) as H0.
      intros x [<-|[<-|Hx]]; [lra | lra |]. apply Hle. now right.
Qed.

Lemma statistics_of_valid (g : grid) (q0 : Q) :
  In (Val q0) g ->
  exists lo hi mean,
    compute_statistics g = Done (mkStatistics (Val lo) (Val hi) (Val mean))
    /\ In (Val lo) g /\ In (Val hi) g /\
    (forall q, In (Val q) g -> lo <= q <= hi).
Proof.
  intros Hq0.
  unfold compute_statistics, np_nanmin, np_nanmax, np_nanmean, nan_reduce.
  apply valid_values_In in Hq0.
  destruct g as [|c g']; [destruct Hq0|].
  remember (c :: g') as g eqn:Eg. clear Eg.
  destruct (valid_values g) as [|q rest] eqn:E; [destruct Hq0|].
  destruct (fold_min_spec rest q) as [Hmin_in Hmin].
  destruct (fold_max_spec rest q) as [Hmax_in Hmax].
  rewrite <- E in Hmin_in, Hmin, Hmax_in, Hmax.
  eexists. eexists. eexists. split; [reflexivity|].
  split; [now apply valid_values_In|].
  split; [now apply valid_values_In|].
  intros x Hx. apply valid_values_In in Hx. split; auto.
Qed.

(** The statistics of a grid: an empty grid is an error; a grid without a
    valid cell gives three NaN; otherwise the three statistics are numbers,
    and the minimum and the maximum are values of the grid that bound
    every valid cell. *)
Theorem statistics_are_ordered (g : grid) :
  (g = [] -> compute_statistics g = Threw ValueError) /\
  (g <> [] -> (forall q, ~ In (Val q) g) ->
   compute_statistics g = Done (mkStatistics NaN NaN NaN)) /\
  (forall q0, In (Val q0) g ->
   exists lo hi mean,
     compute_statistics g = Done (mkStatistics (Val lo) (Val hi) (Val mean))
     /\ In (Val lo) g /\ In (Val hi) g /\
     (forall q, In (Val q) g -> lo <= q <= hi)).
Proof.
  split; [intros ->; reflexivity|]. split.
  - intros Hne Hnone.
    assert (Hv : valid_values g = []).
    { destruct (valid_values g) as [|q rest] eqn:E; [reflexivity|].
      exfalso. apply (Hnone q). apply valid_values_In. rewrite E. now left. }
    unfold compute_statistics, np_nanmin, np_nanmax, np_nanmean, nan_reduce.
    rewrite Hv. destruct g; [congruence | reflexivity].
  - apply statistics_of_valid.
Qed.

Lemma statistics_are_ordered_witness :
  exists lo hi mean,
    compute_statistics [Val 30; NaN; Val 10; Val 80]
    = Done (mkStatistics (Val lo) (Val hi) (Val mean)) /\
    lo <= 30 <= hi.
Proof.
  destruct (proj2 (proj2 (statistics_are_ordered
                            [Val 30; NaN; Val 10; Val 80])) 30)
    as (lo & hi & mean & H1 & _ & _ & H2).
  - simpl. tauto.
  - exists lo, hi, mean. split; [exact H1|]. apply H2. simpl. tauto.
Defined.

(** ** The analysis job *)

(** What the job leaves behind.  If the computation raises, the job fails
    with that error, writes nothing and leaves the file list as it was; so
    it does when the output path has no directory part, where the save
    raises.  Otherwise the job creates the directory and writes the grid
    once, last, under suitability_<layer>.tif in the data folder, a missing
    cell replaced by the no-data value, and registers that file name; on a
    grid with a cell it then completes, and the minimum and the maximum it
    reports, when they are numbers, are cells of the grid that bound every
    valid cell and lie between 0 and 100. *)
Theorem run_analysis_outcomes
  (reproject : Resampling -> grid -> shape -> Affine -> CRS -> Affine ->
               shape -> nat -> cell)
  (data_path : string -> string) (fld : folder)
  (files_json : option (list string)) (w : weights)
  (safe custom : string) :
  let job := run_analysis reproject data_path fld files_json w safe custom in
  let filename := output_filename safe in
  match result (calculate_suitability reproject fld (Some w)) with
  | Raise e =>
      job = mkJob (trace (calculate_suitability reproject fld (Some w)))
              files_json (Failed (CoreError e))
  | Return (out, m) =>
      match dirname (data_path filename) with
      | EmptyString =>
          job = mkJob (trace (calculate_suitability reproject fld (Some w)))
                  files_json (Failed (CoreError FileNotFoundError))
      | String _ _ as dir =>
          job_events job
          = trace (calculate_suitability reproject fld (Some w))
              ++ [EvMakedirs dir;
                  EvWrite (data_path filename) (output_meta m)
                    (fill_nodata (output_meta m) out)] /\
          job_files_json job = update_files_json files_json filename /\
          (out <> [] ->
           exists stats,
             job_status job
             = Completed (data_path filename) safe filename custom stats /\
             forall lo hi,
               min_suitability stats = Val lo ->
               max_suitability stats = Val hi ->
               In (Val lo) out /\ In (Val hi) out /\
               (forall q, In (Val q) out -> lo <= q <= hi) /\
               0 <= lo /\ lo <= hi /\ hi <= 100)
      end
  end.
Proof.
  cbv zeta. unfold run_analysis.
  pose proof (calculate_returns reproject fld (Some w)) as Hret.
  remember (calculate_suitability reproject fld (Some w)) as C eqn:EC.
  destruct C as [t [[out m]|e]]; unfold result, trace in *; simpl snd;
    simpl fst; [|reflexivity].
  destruct (Hret out m eq_refl) as (w' & src & _ & _ & _ & Hout).
  assert (Hb : Forall (fun c => exists q, c = Val q /\ 0 <= q <= 100) out).
  { rewrite Hout. apply rescale_bounded.
    apply (penalized_well_shaped reproject fld w' (transform src)
             (raster_shape src)). }
  assert (Hval : Forall is_val out).
  { eapply Forall_impl; [|exact Hb]. now intros c (q & -> & _). }
  rewrite (save_outcome out m _). clear Hret Hout EC.
  destruct (dirname (data_path (output_filename safe))) as [|c0 rest];
    [now rewrite app_nil_r|].
  destruct out as [|c out'].
  - simpl. repeat split. congruence.
  - assert (Hc : exists q, c = Val q)
      by (inversion Hb as [|? ? (q & -> & _) _]; now exists q).
    destruct Hc as (q0 & Hq0).
    destruct (statistics_of_valid (c :: out') q0)
      as (lo & hi & mean & Hs & Hlo & Hhi & Hbound);
      [rewrite Hq0; now left|].
    rewrite Hs. simpl. repeat split.
    intros _. eexists. split; [reflexivity|].
    simpl. intros lo' hi' El Eh.
    injection El as <-. injection Eh as <-.
    rewrite Forall_forall in Hb.
    destruct (Hb _ Hlo) as (ql & El & Hl). injection El as <-.
    destruct (Hb _ Hhi) as (qh & Eh & Hh). injection Eh as <-.
    pose proof (Hbound lo Hlo).
    split; [exact Hlo|]. split; [exact Hhi|]. split; [exact Hbound|]. lra.
Qed.

(** ** The layer list *)

Lemma prefix_append_self (p s : string) :
  String.prefix p (p ++ s)%string = true.
Proof.
  induction p as [|c p IH]; simpl; [now destruct s|].
  destruct (ascii_dec c c); [exact IH | congruence].
Qed.

Lemma replace_from_skip (old new p s : string) :
  replace_from old new (String.length p) (p ++ s)%string
  = replace_from old new 0 s.
Proof.
  induction p as [|c p IH]; simpl; [reflexivity | exact IH].
Qed.

Lemma str_replace_prefix (o : ascii) (old' new s : string) :
  str_replace (String o old') new (String o old' ++ s)%string
  = (new ++ str_replace (String o old') new s)%string.
Proof.
  unfold str_replace.
  change (String o old' ++ s)%string with (String o (old' ++ s)%string).
  unfold replace_from at 1. fold replace_from.
  change (String o (old' ++ s)%string) with (String o old' ++ s)%string.
  rewrite prefix_append_self.
  replace (String.length (String o old') - 1)%nat with (String.length old')
    by (simpl; lia).
  now rewrite replace_from_skip.
Qed.

Lemma str_replace_no_occurrence (old new s : string) :
  occurs old s = false -> str_replace old new s = s.
Proof.
  unfold str_replace. induction s as [|c rest IH]; [reflexivity|].
  intros H. simpl in H. apply orb_false_iff in H. destruct H as [Hp Hr].
  simpl replace_from. simpl in Hp. rewrite Hp. now rewrite (IH Hr).
Qed.

Lemma prefix_append_foreign (old a b : string) (c0 : ascii) :
  string_forall (fun c => negb (c =? c0)%char) old = true ->
  head_is c0 b = true ->
  String.prefix old (a ++ b)%string = true -> String.prefix old a = true.
Proof.
  intros Hold Hb. revert a. induction old as [|o old IH]; intros a H;
    [now destruct a|].
  simpl in Hold. apply andb_true_iff in Hold. destruct Hold as [Ho Hold].
  destruct a as [|c a]; simpl in *.
  - destruct b as [|cb b]; [discriminate|]. simpl in Hb.
    apply Ascii.eqb_eq in Hb. subst cb.
    simpl in H. destruct (ascii_dec o c0) as [Heq|Hne]; [|discriminate H].
    subst o. rewrite Ascii.eqb_refl in Ho. discriminate Ho.
  - destruct (ascii_dec o c) as [Heq|Hne]; [now apply IH | discriminate H].
Qed.

Lemma occurs_append_foreign (old a b : string) (c0 : ascii) :
  old <> EmptyString ->
  string_forall (fun c => negb (c =? c0)%char) old = true ->
  head_is c0 b = true ->
  occurs old a = false -> occurs old b = false ->
  occurs old (a ++ b)%string = false.
Proof.
  intros Hne Hold Hb Ha Hob. induction a as [|c a IH]; [exact Hob|].
  cbn [occurs] in Ha. apply orb_false_iff in Ha. destruct Ha as [Hp Ha].
  change (String c a ++ b)%string with (String c (a ++ b)%string).
  cbn [occurs]. rewrite (IH Ha), orb_false_r.
  destruct (String.prefix old (String c (a ++ b)%string)) eqn:E;
    [|reflexivity].
  change (String c (a ++ b)%string) with (String c a ++ b)%string in E.
  rewrite (prefix_append_foreign old (String c a) b c0 Hold Hb E) in Hp.
  discriminate.
Qed.

Lemma str_replace_foreign_prefix (o : ascii) (old' new a b : string) :
  string_forall (fun c => negb (c =? o)%char) a = true ->
  str_replace (String o old') new (a ++ b)%string
  = (a ++ str_replace (String o old') new b)%string.
Proof.
  unfold str_replace. induction a as [|c a IH]; [reflexivity|].
  intros H. simpl in H. apply andb_true_iff in H. destruct H as [Hc Ha].
  change (String c a ++ b)%string with (String c (a ++ b)%string).
  simpl replace_from.
  destruct (ascii_dec o c) as [->|Hne].
  - rewrite Ascii.eqb_refl in Hc. discriminate.
  - simpl. now rewrite (IH Ha).
Qed.

Lemma allowed_no_dot (s : string) :
  string_forall allowed s = true ->
  string_forall (fun c => negb (c =? ".")%char) s = true.
Proof.
  induction s as [|c rest IH]; simpl; [reflexivity|].
  intros H. apply andb_true_iff in H. destruct H as [Hc Hr].
  rewrite (IH Hr), andb_true_r.
  destruct (c =? ".")%char eqn:E; [|reflexivity].
  apply Ascii.eqb_eq in E. subst c. discriminate Hc.
Qed.

Lemma append_empty_r (s : string) : (s ++ "")%string = s.
Proof. induction s as [|c s IH]; simpl; [reflexivity | now rewrite IH]. Qed.

Lemma name_part_round_trip (safe : string) :
  string_forall allowed safe = true ->
  occurs "suitability_" safe = false ->
  str_replace ".tif" "" (str_replace "suitability_" "" (output_filename safe))
  = safe.
Proof.
  intros Hall Hocc. unfold output_filename.
  rewrite str_replace_prefix. simpl append at 1.
  rewrite (str_replace_no_occurrence "suitability_" "" (safe ++ ".tif")).
  - rewrite str_replace_foreign_prefix by now apply allowed_no_dot.
    change (str_replace ".tif" "" ".tif") with ""%string.
    apply append_empty_r.
  - apply (occurs_append_foreign _ _ _ "."%char); auto; discriminate.
Qed.

(** The layer list gives back the name an analysis was stored under: once
    the file of a layer is registered, the list shows an entry for it
    whose layer name is the sanitized name - provided the name does not
    itself contain the text "suitability_", which the extraction
    removes. *)
Theorem layer_name_round_trip (file_exists : string -> bool)
  (title : string -> string) (files : list string) (safe : string) :
  string_forall allowed safe = true ->
  occurs "suitability_" safe = false ->
  In (output_filename safe) files ->
  exists layer,
    In layer (get_available_layers file_exists title (Some files)) /\
    layer_filename layer = output_filename safe /\
    layer_name layer = safe.
Proof.
  intros Hall Hocc Hin.
  exists (layer_of file_exists title (output_filename safe)). split.
  - unfold get_available_layers. apply in_map. apply filter_In.
    split; [exact Hin|]. unfold output_filename.
    apply (prefix_append_self "suitability" ("_" ++ safe ++ ".tif")).
  - unfold layer_of.
    assert (E : (output_filename safe =? "suitability.tif")%string = false).
    { unfold output_filename. simpl. reflexivity. }
    rewrite E. simpl. split; [reflexivity|].
    now apply name_part_round_trip.
Qed.

Lemma layer_name_round_trip_witness :
  exists layer,
    In layer
       (get_available_layers (fun _ => true) (fun s => s)
          (Some ["NDVI.tif"; "suitability_Dry_season-2024.tif"]%string)) /\
    layer_name layer = "Dry_season-2024"%string.
Proof.
  destruct (layer_name_round_trip (fun _ => true) (fun s => s)
              ["NDVI.tif"; "suitability_Dry_season-2024.tif"]%string
              "Dry_season-2024") as (layer & Hin & _ & Hname).
  - reflexivity.
  - reflexivity.
  - simpl. tauto.
  - exists layer. split; [exact Hin | exact Hname].
Defined.

(** A job that completed and the layer list agree: the file name the job
    registers is listed with the layer name the request was answered
    with. *)
Theorem registered_layer_is_listed (file_exists : string -> bool)
  (title : string -> string) (files_json : option (list string))
  (custom_name : string) :
  occurs "suitability_" (safe_name custom_name) = false ->
  exists layer,
    In layer
       (get_available_layers file_exists title
          (update_files_json files_json
             (output_filename (safe_name custom_name)))) /\
    layer_name layer = safe_name custom_name.
Proof.
  intros Hocc.
  destruct (update_files_json_lists files_json
              (output_filename (safe_name custom_name)))
    as (after & -> & Hin).
  pose proof (safe_name_allowed custom_name) as Hall.
  exists (layer_of file_exists title
            (output_filename (safe_name custom_name))). split.
  - unfold get_available_layers. apply in_map. apply filter_In.
    split; [exact Hin|]. unfold output_filename.
    apply (prefix_append_self "suitability"
             ("_" ++ safe_name custom_name ++ ".tif")).
  - unfold layer_of.
    assert (E : (output_filename (safe_name custom_name)
                 =? "suitability.tif")%string = false)
      by (unfold output_filename; simpl; reflexivity).
    rewrite E. simpl. now apply name_part_round_trip.
Qed.

Lemma registered_layer_is_listed_witness :
  exists layer,
    In layer
       (get_available_layers (fun _ => true) (fun s => s)
          (update_files_json (Some ["NDVI.tif"%string])
             (output_filename (safe_name "Dry season/2024")))) /\
    layer_name layer = safe_name "Dry season/2024".
Proof.
  apply registered_layer_is_listed. reflexivity.
Defined.

End ApiServerFacts.
